(** * CubismNova helper scripts: a shallow embedding and its properties

    Three stand-alone Python scripts are modelled:
    - [tools/version/gen_version.py]            (module [GenVersion]),
    - [test/.../Divergence/euler/submit.py]     (module [Submit]),
    - [test/.../Divergence/post.py]             (module [Post]).

    Python text is modelled as [string] (a sequence of bytes); the [str]
    methods are given for ASCII text.  The file system is a finite map from
    paths to the contents of the regular files, the process environment a
    finite map from names to values.  A key of the file system stands for
    one file; where a statement depends on two paths reaching the same file,
    the resolution of paths is a parameter of the run ([Post.main_via]).
    A script is a computation in a state-and-exception monad over that
    world: an uncaught exception stops the script and keeps every effect
    performed before it.

    What lies outside the scripts enters as data: the command line, the
    clock, the output of the subshell that sources [./common.sh] as
    [json.loads] reads it, the exit code of the scheduler command, and the
    text pandas prints for a frame.  What a child process does to the files on
    its own is not part of the model. *)

From Stdlib Require Import ZArith Ascii String Bool Lia.
From Stdlib Require Import DecimalString DecimalN DecimalFacts.
From Stdlib Require Import PrimFloat Uint63.
From stdpp Require Import base option list gmap strings sorting.

Local Open Scope string_scope.
Local Open Scope Z_scope.

(** ** The Python runtime: exceptions, results, the world *)

Inductive exn : Type :=
| FileNotFoundError
| UnsupportedOperation   (* io.UnsupportedOperation: write on a read handle *)
| ValueError             (* unpacking, int() and json.loads failures *)
| TypeError
| KeyError
| OSError
| ParserError.           (* pandas.errors.ParserError / EmptyDataError *)

Inductive result (A : Type) : Type :=
| Ok (a : A)
| Raise (e : exn).
Arguments Ok {A} a.
Arguments Raise {A} e.

(** What the scripts do to the outside, in program order. *)
Inductive Event : Type :=
| EvWrite (path content : string)          (* open(path, 'w'); write(content) *)
| EvAppend (path text : string)            (* open(path, 'a'); write(text) *)
| EvSpawn (cmd : string) (env : gmap string string) (status : option Z).
                                           (* Popen(cmd, shell=True, env=env) *)

Record World : Type := mkWorld {
  fs : gmap string string;        (* regular files: path to content *)
  environ : gmap string string;   (* os.environ *)
  trace : list Event              (* effects so far, oldest first *)
}.

Definition M (A : Type) : Type := World -> result A * World.

Definition ret {A} (a : A) : M A := fun w => (Ok a, w).

Definition raise {A} (e : exn) : M A := fun w => (Raise e, w).

Definition bind {A B} (m : M A) (k : A -> M B) : M B :=
  fun w => match m w with
           | (Ok a, w') => k a w'
           | (Raise e, w') => (Raise e, w')
           end.

Notation "'let*' x ':=' m 'in' k" := (bind m (fun x => k))
  (at level 10, x pattern, m at level 100, k at level 200).

(** The exit status of the interpreter: 0 when the script runs to its end,
    1 when an exception reaches the top level. *)
Definition exit_status {A} (r : result A) : Z :=
  match r with
  | Ok _ => 0
  | Raise _ => 1
  end.

(** *** Files *)

(** [os.path.isfile(p)] *)
Definition isfile (p : string) : M bool :=
  fun w => (Ok (bool_decide (is_Some (fs w !! p))), w).

(** [with open(p, 'r') as f: f.read()] *)
Definition read_file (p : string) : M string :=
  fun w => match fs w !! p with
           | Some c => (Ok c, w)
           | None => (Raise FileNotFoundError, w)
           end.

(** [with open(p, 'w') as f: f.write(s)]: the file is truncated or created. *)
Definition write_file (p s : string) : M unit :=
  fun w => (Ok tt, {| fs := <[p := s]> (fs w);
                      environ := environ w;
                      trace := trace w ++ [EvWrite p s] |}).

(** [with open(p, 'a') as f: f.write(s)]: the text goes after the last byte;
    a missing file is created. *)
Definition append_file (p s : string) : M unit :=
  fun w => (Ok tt, {| fs := <[p := default "" (fs w !! p) +:+ s]> (fs w);
                      environ := environ w;
                      trace := trace w ++ [EvAppend p s] |}).

(** [with open(p, 'r') as f: f.write(s)]: opening fails on a missing file,
    and a handle opened for reading refuses the write. *)
Definition open_r_write (p s : string) : M unit :=
  fun w => match fs w !! p with
           | Some _ => (Raise UnsupportedOperation, w)
           | None => (Raise FileNotFoundError, w)
           end.

(** *** Environment *)

(** [os.environ[k] = v] *)
Definition setenv (k v : string) : M unit :=
  fun w => (Ok tt, {| fs := fs w; environ := <[k := v]> (environ w);
                      trace := trace w |}).

(** [os.environ[k]] *)
Definition getenv (k : string) : M string :=
  fun w => match environ w !! k with
           | Some v => (Ok v, w)
           | None => (Raise KeyError, w)
           end.

(** [os.environ = env] *)
Definition set_environ (env : gmap string string) : M unit :=
  fun w => (Ok tt, {| fs := fs w; environ := env; trace := trace w |}).

(** [subprocess.Popen(cmd, shell=True, env=dict(os.environ)).wait()]:
    [status] is what the operating system answers, [None] when the child
    cannot be started, [Some n] when it ran and exited with code [n], which
    is the value of [wait()]. *)
Definition popen_wait (cmd : string) (status : option Z) : M Z :=
  fun w =>
    let w' := {| fs := fs w; environ := environ w;
                 trace := trace w ++ [EvSpawn cmd (environ w) status] |} in
    match status with
    | Some n => (Ok n, w')
    | None => (Raise OSError, w')
    end.

(** ** Python's [str] methods *)

(** Whitespace of [str.strip] and [str.split]: TAB..CR, FS..US, space. *)
Definition py_isspace (c : ascii) : bool :=
  let n := nat_of_ascii c in
  ((9 <=? n)%nat && (n <=? 13)%nat) || ((28 <=? n)%nat && (n <=? 32)%nat).

Fixpoint py_lstrip (s : string) : string :=
  match s with
  | String c s' => if py_isspace c then py_lstrip s' else s
  | EmptyString => EmptyString
  end.

Fixpoint py_rstrip (s : string) : string :=
  match s with
  | String c s' =>
      match py_rstrip s' with
      | EmptyString => if py_isspace c then EmptyString else String c EmptyString
      | r => String c r
      end
  | EmptyString => EmptyString
  end.

(** [s.strip()] *)
Definition py_strip (s : string) : string := py_rstrip (py_lstrip s).

Fixpoint py_split_go (cur : string) (s : string) : list string :=
  match s with
  | String c s' =>
      if py_isspace c
      then match cur with
           | EmptyString => py_split_go EmptyString s'
           | _ => cur :: py_split_go EmptyString s'
           end
      else py_split_go (cur +:+ String c EmptyString) s'
  | EmptyString =>
      match cur with
      | EmptyString => []
      | _ => [cur]
      end
  end.

(** [s.split()]: the maximal runs of non-whitespace. *)
Definition py_split (s : string) : list string := py_split_go EmptyString s.

Fixpoint py_split_on_go (sep : ascii) (cur : string) (s : string) : list string :=
  match s with
  | String c s' =>
      if Ascii.eqb c sep
      then cur :: py_split_on_go sep EmptyString s'
      else py_split_on_go sep (cur +:+ String c EmptyString) s'
  | EmptyString => [cur]
  end.

(** [s.split(sep)] for a one-character separator: empty fields are kept. *)
Definition py_split_on (sep : ascii) (s : string) : list string :=
  py_split_on_go sep EmptyString s.

Fixpoint py_interleave (new s : string) : string :=
  match s with
  | String c s' => String c (new +:+ py_interleave new s')
  | EmptyString => EmptyString
  end.

Fixpoint py_replace_go (old new : string) (skip : nat) (s : string) : string :=
  match s with
  | String c s' =>
      match skip with
      | S k => py_replace_go old new k s'
      | O =>
          if String.prefix old s
          then new +:+ py_replace_go old new (String.length old - 1) s'
          else String c (py_replace_go old new 0 s')
      end
  | EmptyString => EmptyString
  end.

(** [s.replace(old, new)]: every non-overlapping occurrence, left to right;
    the result is a new string, [s] itself is immutable. *)
Definition py_replace (old new s : string) : string :=
  match old with
  | EmptyString => new +:+ py_interleave new s
  | _ => py_replace_go old new 0 s
  end.

(** [f.readline()] on a fresh text-mode handle: the first line with its
    newline; a carriage return ends the line too and is handed over as a
    newline (universal newlines). *)
Fixpoint py_readline (s : string) : string :=
  match s with
  | String c s' =>
      if Ascii.eqb c "010" || Ascii.eqb c "013"
      then String "010" EmptyString
      else String c (py_readline s')
  | EmptyString => EmptyString
  end.

(** ** Python's integers as text *)

Definition digit_of (c : ascii) : option Z :=
  let n := nat_of_ascii c in
  if ((48 <=? n)%nat && (n <=? 57)%nat) then Some (Z.of_nat n - 48) else None.

(** The digits of an [int] literal: decimal digits, single underscores
    allowed between two digits.  [prev] tells whether the previous
    character was a digit. *)
Fixpoint py_digits (acc : Z) (prev : bool) (s : string) : option Z :=
  match s with
  | String c s' =>
      match digit_of c with
      | Some d => py_digits (10 * acc + d) true s'
      | None => if Ascii.eqb c "_" && prev then py_digits acc false s' else None
      end
  | EmptyString => if prev then Some acc else None
  end.

(** Whitespace of [int]: on ASCII text the conversion skips TAB..CR and the
    space on either side of the number, and nothing else (the separators
    FS..US, which [str.strip] removes, make it fail). *)
Definition c_isspace (c : ascii) : bool :=
  let n := nat_of_ascii c in
  ((9 <=? n)%nat && (n <=? 13)%nat) || (n =? 32)%nat.

Fixpoint int_lstrip (s : string) : string :=
  match s with
  | String c s' => if c_isspace c then int_lstrip s' else s
  | EmptyString => EmptyString
  end.

Fixpoint int_rstrip (s : string) : string :=
  match s with
  | String c s' =>
      match int_rstrip s' with
      | EmptyString => if c_isspace c then EmptyString else String c EmptyString
      | r => String c r
      end
  | EmptyString => EmptyString
  end.

(** [int(s)]: surrounding whitespace, an optional sign, the digits; [None]
    where Python raises [ValueError]. *)
Definition py_int (s : string) : option Z :=
  match int_rstrip (int_lstrip s) with
  | String "-" r => Z.opp <$> py_digits 0 false r
  | String "+" r => py_digits 0 false r
  | t => py_digits 0 false t
  end.

(** The decimal digits of a natural number, no sign, no padding. *)
Definition py_decimal (n : N) : string :=
  NilZero.string_of_uint (N.to_uint n).

(** ['%d' % n] *)
Definition fmt_d (n : Z) : string :=
  match n with
  | Zneg p => "-" +:+ py_decimal (Npos p)
  | _ => py_decimal (Z.to_N n)
  end.

Fixpoint zeros (k : nat) : string :=
  match k with
  | O => EmptyString
  | S k' => String "0" (zeros k')
  end.

(** Left padding with ["0"] up to [width] characters; longer text is kept. *)
Definition zfill (width : nat) (s : string) : string :=
  zeros (width - String.length s) +:+ s.

(** ['%04d' % n]: minimum field width 4, the sign counts in the width and
    goes before the zeros. *)
Definition fmt_04d (n : Z) : string :=
  match n with
  | Zneg p => "-" +:+ zfill 3 (py_decimal (Npos p))
  | _ => zfill 4 (py_decimal (Z.to_N n))
  end.

Definition nl : string := String "010" EmptyString.

(** A double quote, for the shell command lines. *)
Definition dq : string := String (ascii_of_nat 34) EmptyString.

(** ** tools/version/gen_version.py *)

Module GenVersion.

(** The parsed command line ([parse_args]): [-i], [-o], [-p] (default ["."]). *)
Record Args : Type := mkArgs {
  input : string;
  output : string;
  project_root : string
}.

(** A variable that holds a [str] at one point and a [list] at another. *)
Inductive pyval : Type :=
| VStr (s : string)
| VList (l : list string).

Fixpoint endswith_char (c : ascii) (s : string) : bool :=
  match s with
  | String a EmptyString => Ascii.eqb a c
  | String _ s' => endswith_char c s'
  | EmptyString => false
  end.

(** One round of the loop of [posixpath.join]. *)
Definition join_step (path b : string) : string :=
  if String.prefix "/" b then b
  else match path with
       | EmptyString => b
       | _ => if endswith_char "/" path then path +:+ b else path +:+ "/" +:+ b
       end.

(** [os.path.join(a, *p)] *)
Definition os_path_join (a : string) (p : list string) : string :=
  fold_left join_step p a.

(** [x, y, z = l] *)
Definition unpack3 (l : list string) : M (string * string * string) :=
  match l with
  | [x; y; z] => ret (x, y, z)
  | _ => raise ValueError
  end.

(** [s.replace(old, new)] where [new] may turn out not to be a [str]. *)
Definition str_replace (s old : string) (new : pyval) : M string :=
  match new with
  | VStr n => ret (py_replace old n s)
  | VList _ => raise TypeError
  end.

(** Lines 25-28: the version string and its three components. *)
Definition read_version (args : Args) : M (string * (string * string * string)) :=
  let fversion := os_path_join (project_root args) ["VERSION"] in
  let* content := read_file fversion in
  let version := py_strip content in
  let* parts := unpack3 (py_split_on "." version) in
  ret (version, parts).

(** Lines 30-43: the values of [HEAD] and [SHA1] after the [if]. *)
Definition resolve_head (args : Args) : M (pyval * pyval) :=
  let fHEAD := os_path_join (project_root args) [".git"; "HEAD"] in
  let* present := isfile fHEAD in
  if (present : bool) then
    let* content := read_file fHEAD in
    let HEAD := py_split (py_strip content) in
    if (1 <? length HEAD)%nat then
      let HEAD1 := default EmptyString (HEAD !! 1%nat) in
      let fSHA1 := os_path_join (project_root args) [".git"; HEAD1] in
      let* ref := read_file fSHA1 in
      ret (VStr HEAD1, VStr (py_strip ref))
    else
      ret (VList HEAD, VList HEAD)
  else
    ret (VStr EmptyString, VStr EmptyString).

(** Lines 45-52.  The three [replace] calls build new strings that are
    dropped; [version_template] is written as it was read, through a handle
    opened with mode ['r']. *)
Definition stamp (args : Args) (version : string) (HEAD SHA1 : pyval) : M unit :=
  let* version_template := read_file (input args) in
  let* _ := str_replace version_template "@VERSION@" (VStr version) in
  let* _ := str_replace version_template "@HEAD@" HEAD in
  let* _ := str_replace version_template "@SHA1@" SHA1 in
  open_r_write (output args) version_template.

Definition main (args : Args) : M unit :=
  let* (version, _) := read_version args in
  let* (HEAD, SHA1) := resolve_head args in
  stamp args version HEAD SHA1.

End GenVersion.

(** ** test/sandbox/Benchmarks/Kernel/Divergence/euler/submit.py *)

Module Submit.

(** What [json.loads] makes of the output of the subshell that sources
    [./common.sh]: the output is no JSON text ([json.loads] raises), or it is
    a JSON value other than an object (a number, [null], a list, ...), or it
    is an object.  [Object env] is an object whose members are all strings,
    as [json.dumps(dict(os.environ))] prints it; an object with a member of
    another kind, which the dump command never prints, is not described. *)
Inductive Dump : Type :=
| NotJSON
| NotObject
| Object (env : gmap string string).

(** What one invocation gets from outside: the [--cwd] argument, the clock
    (already formatted by [strftime]), the output of the subshell as
    [json.loads] reads it, and how the scheduler command ends ([None] when
    it cannot be started). *)
Record Run : Type := mkRun {
  cwd : string;
  now_date : string;      (* now.strftime('%Y-%m-%d') *)
  now_time : string;      (* now.strftime('%H:%M') *)
  sh_dump : Dump;
  bsub_status : option Z
}.

(** [int(s)] *)
Definition int_ (s : string) : M Z :=
  match py_int s with
  | Some n => ret n
  | None => raise ValueError
  end.

(** Lines 25-27: [json.loads] of what the subshell printed; a text that is
    no JSON raises [JSONDecodeError], a [ValueError]. *)
Definition source_common (r : Run) : M Dump :=
  match sh_dump r with
  | NotJSON => raise ValueError
  | env => ret env
  end.

(** Lines 28 and 31: [os.environ = env], then the first item assignment
    [os.environ['JC_LOGHOME'] = "."], which a value that is no dictionary
    refuses with [TypeError]; the run ends there, and the environment of
    the world is not looked at again. *)
Definition take_environ (env : Dump) : M unit :=
  match env with
  | Object env => let* _ := set_environ env in setenv "JC_LOGHOME" "."
  | _ => raise TypeError
  end.

(** Lines 33-41: the job counter. *)
Definition job_counter (countfile : string) : M Z :=
  let* present := isfile countfile in
  if (present : bool) then
    let* content := read_file countfile in
    let* count := int_ (py_readline content) in
    let* _ := write_file countfile (fmt_d (count + 1)) in
    ret count
  else
    let* _ := write_file countfile "2" in
    ret 1.

Definition tmplog_name (loghome jobdate jobtime jobid : string) : string :=
  loghome +:+ "/.<euler-div-kernel-512_" +:+ jobdate +:+ "_" +:+ jobtime
          +:+ "_" +:+ jobid +:+ ">.tmp".

Definition tmplog_text (jobdate jobtime jobid : string) : string :=
  jobdate +:+ nl +:+ jobtime +:+ nl +:+ jobid +:+ nl.

Definition submission_jc : string :=
  "bsub -cwd ${JC_JOBWD} -E " +:+ dq +:+ "${JC_PROLOG} '${JC_JOBTMP}'" +:+ dq
  +:+ " -Ep " +:+ dq +:+ "${JC_EPILOG} '${JC_JOBTMP}'" +:+ dq
  +:+ " -R fullnode < ${JC_JOB}".

Definition submission_plain : string :=
  "bsub -cwd ${JC_JOBWD} -R fullnode < ./job.sh".

(** Lines 31-61: the branch taken when [./common.sh] exists. *)
Definition submit_jc (r : Run) : M unit :=
  let* env := source_common r in
  let* _ := take_environ env in
  let* loghome := getenv "JC_LOGHOME" in
  let countfile := loghome +:+ "/.count" in
  let* count := job_counter countfile in
  let* _ := setenv "JC_JOBID" (fmt_04d count) in
  let* _ := setenv "JC_JOBDATE" (now_date r) in
  let* _ := setenv "JC_JOBTIME" (now_time r) in
  let* loghome := getenv "JC_LOGHOME" in
  let* jobdate := getenv "JC_JOBDATE" in
  let* jobtime := getenv "JC_JOBTIME" in
  let* jobid := getenv "JC_JOBID" in
  let tmplogfile := tmplog_name loghome jobdate jobtime jobid in
  let* _ := write_file tmplogfile (tmplog_text jobdate jobtime jobid) in
  let* _ := setenv "JC_JOBTMP" tmplogfile in
  let* _ := popen_wait submission_jc (bsub_status r) in
  ret tt.

(** The script body (lines 19-64).  The value of [wait()] is not used. *)
Definition main (r : Run) : M unit :=
  let* _ := setenv "JC_JOBWD" (cwd r) in
  let* common := isfile "./common.sh" in
  if (common : bool) then submit_jc r
  else
    let* _ := popen_wait submission_plain (bsub_status r) in
    ret tt.

End Submit.

(** ** test/sandbox/Benchmarks/Kernel/Divergence/post.py *)

Module Post.

(** The parsed command line ([parseArgs]): [-f/--files] and [-o/--output]. *)
Record Args : Type := mkArgs {
  files : list string;
  output : string
}.

(** [cols]: the five columns of a benchmark record. *)
Definition cols : list string := ["blocks"; "t_init"; "t_comp"; "t_dump"; "t_tot"].

(** A row holds one double per column; a frame is the list of its rows. *)
Definition Row : Type := list float.
Definition DataFrame : Type := list Row.

(** *** Reading a file ([pd.read_csv(f, sep='\s+', names=cols)])

    The reader is given for the files the benchmark writes: lines of five
    whitespace-separated decimal numbers (sign, digits, optional fraction),
    blank lines skipped.  A number is converted as pandas' tokenizer does it:
    the digits are accumulated in a double, which is then scaled by the
    power of ten of the fraction; the integer column [blocks] is held as
    doubles of the same value, which is what its mean is computed on.

    These five-column files are the domain of the reader.  On any other
    content the model stops with [ParserError], as the specification has
    it; pandas itself may also pad a short row with NaN or read text as an
    object column, and the run then goes on or fails later, at
    [ds.loc['mean']].  What is stated about a frame is stated for a file
    that parses. *)

Definition float_of_digit (d : Z) : float := PrimFloat.of_uint63 (Uint63.of_Z d).

Fixpoint accum_digits (acc : float) (s : string) : option float :=
  match s with
  | String c s' =>
      match digit_of c with
      | Some d => accum_digits (acc * 10 + float_of_digit d)%float s'
      | None => None
      end
  | EmptyString => Some acc
  end.

Fixpoint pow10 (k : nat) : float :=
  match k with
  | O => 1%float
  | S k' => (10 * pow10 k')%float
  end.

Definition parse_unsigned (s : string) : option float :=
  match py_split_on "." s with
  | [i] =>
      match i with
      | EmptyString => None
      | _ => accum_digits 0%float i
      end
  | [i; f] =>
      match i +:+ f with
      | EmptyString => None
      | digits => (fun m => m / pow10 (String.length f))%float <$> accum_digits 0%float digits
      end
  | _ => None
  end.

Definition parse_number (s : string) : option float :=
  match s with
  | String "-" r => PrimFloat.opp <$> parse_unsigned r
  | String "+" r => parse_unsigned r
  | _ => parse_unsigned s
  end.

Definition parse_fields (fields : list string) : option Row :=
  if (length fields =? length cols)%nat then mapM parse_number fields else None.

Fixpoint parse_lines (lines : list string) : option DataFrame :=
  match lines with
  | l :: ls =>
      match py_split l with
      | [] => parse_lines ls
      | fields =>
          match parse_fields fields, parse_lines ls with
          | Some row, Some rows => Some (row :: rows)
          | _, _ => None
          end
      end
  | [] => Some []
  end.

Definition parse_csv (content : string) : result DataFrame :=
  match parse_lines (py_split_on "010" content) with
  | Some (r :: rs) => Ok (r :: rs)
  | _ => Raise ParserError
  end.

Definition read_csv (f : string) : M DataFrame :=
  let* content := read_file f in
  fun w => (parse_csv content, w).

(** *** Statistics ([df.describe()]) *)

Definition column (j : nat) (df : DataFrame) : list float :=
  map (fun r => nth j r 0%float) df.

(** The mean of a column: the sum of the samples over their number. *)
Definition mean (xs : list float) : float :=
  (fold_left PrimFloat.add xs 0 / PrimFloat.of_uint63 (Uint63.of_Z (Z.of_nat (length xs))))%float.

Definition mean_row (df : DataFrame) : Row :=
  map (fun j => mean (column j df)) (seq 0 (length cols)).

(** Of the statistics block the script uses the ['mean'] line; the other
    lines (count, std, min, quartiles, max) only appear in its printed form,
    which is computed from the frame. *)
Record Describe : Type := mkDescribe {
  described : DataFrame;
  loc_mean : Row      (* ds.loc['mean'] *)
}.

Definition describe (df : DataFrame) : Describe :=
  {| described := df; loc_mean := mean_row df |}.

(** [sorted(args.files)]: ascending, strings compared character by character. *)
Definition sorted (l : list string) : list string := merge_sort String.le l.

Section Main.

(** The text pandas prints for a statistics block ([ds.to_string()]) and for
    the summary table ([da.to_string(index=False)]).  The layout belongs to
    pandas; the script only writes the text. *)
Variable stats_to_string : Describe -> string.
Variable table_to_string : list Row -> string.

(** Lines 23-28: the loop over the sorted paths, [da] being the summary
    table built so far ([DataFrame.append] returns the longer table). *)
Fixpoint summarize (fs_sorted : list string) (da : list Row) : M (list Row) :=
  match fs_sorted with
  | f :: rest =>
      let* df := read_csv f in
      let ds := describe df in
      let da' := (da ++ [loc_mean ds])%list in
      let* _ := append_file f (stats_to_string ds) in
      summarize rest da'
  | [] => ret da
  end.

(** Lines 19-30; the value is the summary table [da] that was written. *)
Definition main (args : Args) : M (list Row) :=
  let* da := summarize (sorted (files args)) [] in
  let* _ := write_file (output args) (table_to_string da) in
  ret da.

(** The same lines, with the path resolution of [open] and [read_csv] made
    explicit.  [resolve p] is the file that the path [p] reaches: two
    spellings of one path ([run.dat], [./run.dat]) and a link and its target
    reach the same file.  The file system is then keyed by files, and every
    path of the command line goes through [resolve] where the script opens
    it; the paths are sorted as they are spelled (line 23).  [main] is the
    run in which every file is reached under one spelling. *)
Definition main_via (resolve : string -> string) (args : Args) : M (list Row) :=
  let* da := summarize (map resolve (sorted (files args))) [] in
  let* _ := write_file (resolve (output args)) (table_to_string da) in
  ret da.

End Main.

End Post.

(** * Vocabulary of the statements *)

(** A string whose characters all satisfy [p]. *)
Definition str_all (p : ascii -> bool) (s : string) : bool :=
  forallb p (list_ascii_of_string s).

Definition is_digit (c : ascii) : bool := bool_decide (is_Some (digit_of c)).

Definition no_space (c : ascii) : bool := negb (py_isspace c).

(** [s] is the beginning of [t], byte for byte. *)
Definition is_prefix (s t : string) : Prop := exists u, t = s +:+ u.

(** The value of a digit sequence read from the left, starting from [acc]. *)
Fixpoint uint_value (acc : Z) (d : Decimal.uint) : Z :=
  match d with
  | Decimal.Nil => acc
  | Decimal.D0 l => uint_value (10 * acc + 0) l
  | Decimal.D1 l => uint_value (10 * acc + 1) l
  | Decimal.D2 l => uint_value (10 * acc + 2) l
  | Decimal.D3 l => uint_value (10 * acc + 3) l
  | Decimal.D4 l => uint_value (10 * acc + 4) l
  | Decimal.D5 l => uint_value (10 * acc + 5) l
  | Decimal.D6 l => uint_value (10 * acc + 6) l
  | Decimal.D7 l => uint_value (10 * acc + 7) l
  | Decimal.D8 l => uint_value (10 * acc + 8) l
  | Decimal.D9 l => uint_value (10 * acc + 9) l
  end.

(** The counter value a run of the Job Submitter observes: the integer on
    the first line of [./.count], or 1 when there is no such file; [None]
    when the line is not an integer. *)
Definition counter_value (files : gmap string string) : option Z :=
  match files !! "./.count" with
  | Some c => py_int (py_readline c)
  | None => Some 1
  end.

(** Name and text of the temp log of a run that uses job id [n]. *)
Definition jc_tmplog (r : Submit.Run) (n : Z) : string :=
  Submit.tmplog_name "." (Submit.now_date r) (Submit.now_time r) (fmt_04d n).

Definition jc_tmptext (r : Submit.Run) (n : Z) : string :=
  Submit.tmplog_text (Submit.now_date r) (Submit.now_time r) (fmt_04d n).

(** The environment handed to the scheduler by a run that uses job id [n],
    [env] being what the subshell printed. *)
Definition jc_environ (env : gmap string string) (r : Submit.Run) (n : Z)
  : gmap string string :=
  <["JC_JOBTMP" := jc_tmplog r n]>
    (<["JC_JOBTIME" := Submit.now_time r]>
       (<["JC_JOBDATE" := Submit.now_date r]>
          (<["JC_JOBID" := fmt_04d n]> (<["JC_LOGHOME" := "."]> env)))).


(** The same invocation with another output of the subshell. *)
Definition with_dump (r : Submit.Run) (d : Submit.Dump) : Submit.Run :=
  {| Submit.cwd := Submit.cwd r;
     Submit.now_date := Submit.now_date r;
     Submit.now_time := Submit.now_time r;
     Submit.sh_dump := d;
     Submit.bsub_status := Submit.bsub_status r |}.


(** A sample invocation of the Job Submitter, the scheduler command ending
    as [status] says, and a directory with [./common.sh] and, when
    [count] is given, a counter file. *)
Definition jc_run (status : option Z) : Submit.Run :=
  {| Submit.cwd := "/scratch/run";
     Submit.now_date := "2020-02-20";
     Submit.now_time := "14:27";
     Submit.sh_dump := Submit.Object {[ "JC_JOB" := "./job.sh" ]};
     Submit.bsub_status := status |}.

Definition jc_world (count : option string) : World :=
  {| fs := match count with
           | Some c => <["./.count" := c]> {[ "./common.sh" := "" ]}
           | None => {[ "./common.sh" := "" ]}
           end;
     environ := ∅;
     trace := [] |}.

(** The paths of the files appended to, in the order of the appends. *)
Definition appended (tr : list Event) : list string :=
  omap (fun e => match e with EvAppend p _ => Some p | _ => None end) tr.

(** In the world [w] the file [p] parses to the frame [df]. *)
Definition parsed_from (w : World) (p : string) (df : Post.DataFrame) : Prop :=
  exists c, fs w !! p = Some c /\ Post.parse_csv c = Ok df.

(** What a file contributes to a successful run of the aggregator: its
    content parses to [df], and it ends up with the statistics block after
    that content. *)
Definition processed (stats_to_string : Post.Describe -> string)
    (w w' : World) (p : string) (df : Post.DataFrame) : Prop :=
  exists c, fs w !! p = Some c /\ Post.parse_csv c = Ok df /\
            fs w' !! p = Some (c +:+ stats_to_string (Post.describe df)).

(** The data row of the specification's example, as text and as values;
    the second text has the same fields with a wider gap. *)
Definition sample_row : Post.Row := [4; 1; 2; 3; 6]%float.
Definition sample_text : string := "4 1.0 2.0 3.0 6.0" +:+ nl.
Definition sample_text_wide : string := "4  1.0 2.0 3.0 6.0" +:+ nl.

(** Stand-ins for the two pandas printers, for the concrete examples. *)
Definition demo_stats (ds : Post.Describe) : string := "<stats>".
Definition demo_table (da : list Post.Row) : string := "<table>".

Definition one_file_world (p c : string) : World :=
  {| fs := {[ p := c ]}; environ := ∅; trace := [] |}.

Definition two_file_world (c : string) : World :=
  {| fs := <["run2.dat" := c]> {[ "run1.dat" := c ]}; environ := ∅; trace := [] |}.

(** A project tree with a [VERSION] file and a template, and no [.git]. *)
Definition stamper_args : GenVersion.Args :=
  {| GenVersion.input := "version.h.in";
     GenVersion.output := "version.h";
     GenVersion.project_root := "." |}.

Definition stamper_world (version : string) : World :=
  {| fs := <["./VERSION" := version]>
             (<["version.h.in" := "v@VERSION@ (@HEAD@/@SHA1@)"]> ∅);
     environ := ∅;
     trace := [] |}.

(** The same tree with the output file already there. *)
Definition stamper_world_out (version old : string) : World :=
  {| fs := <["version.h" := old]> (fs (stamper_world version));
     environ := ∅;
     trace := [] |}.

(** The same tree with a detached [.git/HEAD] (one token: a commit hash). *)
Definition detached_world (hash : string) : World :=
  {| fs := <["./.git/HEAD" := hash +:+ nl]> (fs (stamper_world_out "1.2.3" "old"));
     environ := ∅;
     trace := [] |}.

(** The same tree on a branch: [.git/HEAD] points to a ref file. *)
Definition branch_world (hash : string) : World :=
  {| fs := <["./.git/HEAD" := "ref: refs/heads/master" +:+ nl]>
             (<["./.git/refs/heads/master" := hash +:+ nl]>
                (fs (stamper_world_out "1.2.3" "old")));
     environ := ∅;
     trace := [] |}.

(** [sep.join(l)] *)
Fixpoint py_join (sep : string) (l : list string) : string :=
  match l with
  | [] => EmptyString
  | [x] => x
  | x :: l' => x +:+ sep +:+ py_join sep l'
  end.

(** No character of [s] is [sep]. *)
Definition without (sep : ascii) (s : string) : bool :=
  str_all (fun c => negb (Ascii.eqb c sep)) s.

(** The same command line with another project root. *)
Definition with_root (args : GenVersion.Args) (root : string) : GenVersion.Args :=
  {| GenVersion.input := GenVersion.input args;
     GenVersion.output := GenVersion.output args;
     GenVersion.project_root := root |}.

(** Consecutive invocations: the job id of each run, and the world left by
    the last one. *)
Fixpoint submit_seq (rs : list Submit.Run) (w : World) : list (option string) * World :=
  match rs with
  | r :: rs' =>
      let w1 := snd (Submit.main r w) in
      let (ids, w2) := submit_seq rs' w1 in
      (environ w1 !! "JC_JOBID" :: ids, w2)
  | [] => ([], w)
  end.

(** The job ids of [k] runs that start at the counter value [n]. *)
Fixpoint ids_from (n : Z) (k : nat) : list (option string) :=
  match k with
  | O => []
  | S k' => Some (fmt_04d n) :: ids_from (n + 1) k'
  end.


(** A resolution of paths that knows one thing: a leading [./] changes
    nothing to the file a relative path reaches. *)
Definition drop_dot_slash (p : string) : string :=
  match p with
  | String "." (String "/" r) => r
  | _ => p
  end.

(** A tree whose [.git/HEAD] names a ref by an absolute path. *)
Definition absolute_ref_world : World :=
  {| fs := <["./.git/HEAD" := "ref: /srv/refs/main" +:+ nl]>
             (<["/srv/refs/main" := "3f2a9c1" +:+ nl]>
                (fs (stamper_world_out "1.2.3" "old")));
     environ := ∅;
     trace := [] |}.

(** Three invocations in a row, whatever the scheduler answers. *)
Definition three_runs : list Submit.Run :=
  [jc_run (Some 0); jc_run None; jc_run (Some 1)].

(** * Properties *)

(** ** The runtime *)

Example py_strip_ex : py_strip ("  1.2.3" +:+ nl) = "1.2.3".
Proof. reflexivity. Qed.

Example py_split_ex :
  py_split "ref: refs/heads/master" = ["ref:"; "refs/heads/master"].
Proof. reflexivity. Qed.

Example py_split_on_ex :
  py_split_on "." "1.2.3" = ["1"; "2"; "3"] /\ py_split_on "." "" = [""] /\
  py_split_on "." "1..2" = ["1"; ""; "2"].
Proof. repeat split. Qed.

Example py_replace_ex : py_replace "@HEAD@" "x" "a@HEAD@b@HEAD@" = "axbx".
Proof. reflexivity. Qed.

Example py_int_ex :
  py_int ("2" +:+ nl) = Some 2 /\ py_int " -1_000 " = Some (-1000) /\
  py_int "" = None /\ py_int "1__0" = None /\ py_int "2 3" = None.
Proof. repeat split. Qed.

(** The separators FS..US are whitespace for [str.strip], not for [int]. *)
Example py_int_separator_ex :
  py_strip ("7" +:+ String "028" nl) = "7" /\
  py_int ("7" +:+ String "028" nl) = None /\
  py_int (String "009" "7" +:+ String "013" nl) = Some 7.
Proof. repeat split. Qed.

Example fmt_04d_ex :
  fmt_04d 1 = "0001" /\ fmt_04d 42 = "0042" /\ fmt_04d 9999 = "9999" /\
  fmt_04d 10000 = "10000" /\ fmt_04d (-5) = "-005" /\ fmt_04d 0 = "0000".
Proof. repeat split. Qed.

Example fmt_d_ex :
  fmt_d 2 = "2" /\ fmt_d 0 = "0" /\ fmt_d (-17) = "-17" /\ fmt_d 10000 = "10000".
Proof. repeat split. Qed.

(** Symbolic execution of a script: unfold the monad and split on what each
    primitive finds in the world. *)
Ltac unfold_prims :=
  unfold bind, ret, raise, isfile, read_file, write_file, append_file,
    open_r_write, setenv, getenv, set_environ, popen_wait in *.

Ltac run := unfold_prims; repeat (simplify_eq /=; try case_match); simplify_eq /=.

Lemma bind_ok {A B} (m : M A) (k : A -> M B) w a w' :
  m w = (Ok a, w') -> bind m k w = k a w'.
Proof. intros H. unfold bind. by rewrite H. Qed.

Lemma bind_raise {A B} (m : M A) (k : A -> M B) w e w' :
  m w = (Raise e, w') -> bind m k w = (Raise e, w').
Proof. intros H. unfold bind. by rewrite H. Qed.

(** ** gen_version.py *)

Example os_path_join_ex :
  GenVersion.os_path_join "." [".git"; "HEAD"] = "./.git/HEAD" /\
  GenVersion.os_path_join "/src/" ["VERSION"] = "/src/VERSION" /\
  GenVersion.os_path_join "." [".git"; "/etc/passwd"] = "/etc/passwd" /\
  GenVersion.os_path_join "" ["VERSION"] = "VERSION".
Proof. repeat split. Qed.

(** The version block reads and never writes. *)
Lemma read_version_pure args w r w' :
  GenVersion.read_version args w = (r, w') -> w' = w.
Proof.
  unfold GenVersion.read_version, GenVersion.unpack3. intros H. run; done.
Qed.

Lemma resolve_head_pure args w r w' :
  GenVersion.resolve_head args w = (r, w') -> w' = w.
Proof. unfold GenVersion.resolve_head. intros H. run; done. Qed.

(** Whatever the arguments and the files, the last statement of [main]
    cannot succeed: the output handle is opened for reading. *)
Lemma stamp_raises args version HEAD SHA1 w :
  exists e, GenVersion.stamp args version HEAD SHA1 w = (Raise e, w).
Proof.
  unfold GenVersion.stamp, GenVersion.str_replace. run; eauto.
Qed.

Lemma main_never_writes args w :
  exists e, GenVersion.main args w = (Raise e, w).
Proof.
  unfold GenVersion.main.
  destruct (GenVersion.read_version args w) as [[[v p]|e] w1] eqn:Hv;
    pose proof (read_version_pure _ _ _ _ Hv) as ->.
  2:{ exists e. by erewrite bind_raise. }
  erewrite bind_ok by done. simpl.
  destruct (GenVersion.resolve_head args w) as [[[h s]|e] w1] eqn:Hh;
    pose proof (resolve_head_pure _ _ _ _ Hh) as ->.
  2:{ exists e. by erewrite bind_raise. }
  erewrite bind_ok by done. apply stamp_raises.
Qed.

(** C5. A [VERSION] file whose stripped content does not split on ['.'] into
    exactly three components makes the Version Stamper stop with
    [ValueError], nothing written; with exactly three components the
    extraction of major, minor and patch succeeds. *)
Theorem version_needs_three_components args w content :
  fs w !! GenVersion.os_path_join (GenVersion.project_root args) ["VERSION"]
    = Some content ->
  (length (py_split_on "." (py_strip content)) <> 3%nat ->
   GenVersion.main args w = (Raise ValueError, w)) /\
  (length (py_split_on "." (py_strip content)) = 3%nat ->
   exists major minor patch,
     py_split_on "." (py_strip content) = [major; minor; patch] /\
     GenVersion.read_version args w
       = (Ok (py_strip content, (major, minor, patch)), w)).
Proof.
  intros Hfile. split; intros Hlen.
  - unfold GenVersion.main, GenVersion.read_version, GenVersion.unpack3.
    unfold bind at 1 2 3. unfold read_file. rewrite Hfile.
    destruct (py_split_on "." (py_strip content)) as [|a [|b [|c [|d l]]]];
      simpl in *; try reflexivity; lia.
  - destruct (py_split_on "." (py_strip content)) as [|a [|b [|c [|d l]]]] eqn:E;
      simpl in Hlen; try lia.
    exists a, b, c. split; [done|].
    unfold GenVersion.read_version, GenVersion.unpack3, bind, read_file, ret.
    by rewrite Hfile, E.
Qed.

Lemma version_needs_three_components_witness :
  GenVersion.main stamper_args (stamper_world "1.2")
    = (Raise ValueError, stamper_world "1.2") /\
  exists major minor patch,
    py_split_on "." (py_strip ("1.2.3" +:+ nl)) = [major; minor; patch] /\
    GenVersion.read_version stamper_args (stamper_world ("1.2.3" +:+ nl))
      = (Ok (py_strip ("1.2.3" +:+ nl), (major, minor, patch)),
         stamper_world ("1.2.3" +:+ nl)).
Proof.
  split.
  - apply (version_needs_three_components stamper_args (stamper_world "1.2") "1.2");
      [reflexivity | vm_compute; lia].
  - apply (version_needs_three_components stamper_args
             (stamper_world ("1.2.3" +:+ nl)) ("1.2.3" +:+ nl));
      reflexivity.
Defined.

(** C1, on the input of the specification's example ([VERSION] is 1.2.3, no
    [.git], template [v@VERSION@ (@HEAD@/@SHA1@)]): the run ends in an
    exception and writes nothing.  Without an output file the [open] fails;
    with one, the write is refused and the file keeps its old content. *)
Theorem stamper_writes_nothing :
  GenVersion.main stamper_args (stamper_world "1.2.3")
    = (Raise FileNotFoundError, stamper_world "1.2.3") /\
  GenVersion.main stamper_args (stamper_world_out "1.2.3" "old")
    = (Raise UnsupportedOperation, stamper_world_out "1.2.3" "old") /\
  fs (snd (GenVersion.main stamper_args (stamper_world_out "1.2.3" "old")))
    !! "version.h" = Some "old".
Proof. repeat split. Qed.

(** What the three substitutions give on that input: the strings the
    [replace] calls compute and drop. *)
Example stamper_dropped_substitution :
  py_replace "@SHA1@" ""
    (py_replace "@HEAD@" ""
       (py_replace "@VERSION@" "1.2.3" "v@VERSION@ (@HEAD@/@SHA1@)"))
  = "v1.2.3 (/)".
Proof. reflexivity. Qed.

(** C4, on a detached head ([.git/HEAD] holds one token): [HEAD] and [SHA1]
    are left bound to the list of tokens, not to the token, and the second
    [replace] stops the run with [TypeError]. *)
Theorem detached_head_is_a_list :
  GenVersion.resolve_head stamper_args (detached_world "3f2a9c1")
    = (Ok (GenVersion.VList ["3f2a9c1"], GenVersion.VList ["3f2a9c1"]),
       detached_world "3f2a9c1") /\
  GenVersion.main stamper_args (detached_world "3f2a9c1")
    = (Raise TypeError, detached_world "3f2a9c1").
Proof. split; reflexivity. Qed.

(** The other two cases of the head resolution. *)
Lemma resolve_head_absent args w :
  fs w !! GenVersion.os_path_join (GenVersion.project_root args) [".git"; "HEAD"]
    = None ->
  GenVersion.resolve_head args w
    = (Ok (GenVersion.VStr "", GenVersion.VStr ""), w).
Proof.
  intros H. unfold GenVersion.resolve_head, bind, isfile. rewrite H.
  rewrite bool_decide_eq_false_2; [done|]. by intros [? ?].
Qed.

Lemma resolve_head_symbolic args w content t0 t1 rest ref :
  fs w !! GenVersion.os_path_join (GenVersion.project_root args) [".git"; "HEAD"]
    = Some content ->
  py_split (py_strip content) = t0 :: t1 :: rest ->
  fs w !! GenVersion.os_path_join (GenVersion.project_root args) [".git"; t1]
    = Some ref ->
  GenVersion.resolve_head args w
    = (Ok (GenVersion.VStr t1, GenVersion.VStr (py_strip ref)), w).
Proof.
  intros H Htok Href. unfold GenVersion.resolve_head, bind, isfile, read_file.
  rewrite H, bool_decide_eq_true_2 by eauto. cbv beta iota.
  rewrite H. cbv beta iota. rewrite Htok.
  cbn -[GenVersion.os_path_join]. by rewrite Href.
Qed.

Example resolve_head_branch :
  GenVersion.resolve_head stamper_args (branch_world "3f2a9c1")
    = (Ok (GenVersion.VStr "refs/heads/master", GenVersion.VStr "3f2a9c1"),
       branch_world "3f2a9c1").
Proof. reflexivity. Qed.

(** ** Integers as text *)

Lemma py_digits_uint d acc :
  py_digits acc true (NilEmpty.string_of_uint d) = Some (uint_value acc d).
Proof.
  revert acc. induction d; intros acc; simpl; try done; apply IHd.
Qed.

Lemma py_digits_uint_start d :
  d <> Decimal.Nil ->
  py_digits 0 false (NilEmpty.string_of_uint d) = Some (uint_value 0 d).
Proof. destruct d; intros H; try done; simpl; apply py_digits_uint. Qed.

Lemma uint_value_acc d (acc : positive) :
  uint_value (Z.pos acc) d = Z.pos (Pos.of_uint_acc d acc).
Proof.
  revert acc. induction d; intros acc; simpl; try done;
    rewrite <- IHd; f_equal; lia.
Qed.

Lemma uint_value_of_uint d : uint_value 0 d = Z.of_N (Pos.of_uint d).
Proof. induction d; simpl; try done; try apply (uint_value_acc d). Qed.

Lemma to_uint_nonnil n : N.to_uint n <> Decimal.Nil.
Proof. destruct n; [done | apply DecimalPos.Unsigned.to_uint_nonnil]. Qed.

Lemma py_decimal_unfold n : py_decimal n = NilEmpty.string_of_uint (N.to_uint n).
Proof.
  unfold py_decimal, NilZero.string_of_uint.
  pose proof (to_uint_nonnil n). by destruct (N.to_uint n).
Qed.

Lemma py_digits_decimal prev n : py_digits 0 prev (py_decimal n) = Some (Z.of_N n).
Proof.
  rewrite py_decimal_unfold.
  destruct prev;
    [rewrite py_digits_uint | rewrite py_digits_uint_start by apply to_uint_nonnil];
    rewrite uint_value_of_uint; do 2 f_equal; apply DecimalN.Unsigned.of_to.
Qed.

Lemma str_all_impl (p q : ascii -> bool) s :
  (forall c, p c = true -> q c = true) -> str_all p s = true -> str_all q s = true.
Proof. intros Hpq. unfold str_all. rewrite !forallb_forall. eauto. Qed.

Lemma str_all_cons p c s : str_all p (String c s) = p c && str_all p s.
Proof. reflexivity. Qed.

Lemma str_all_app p s t : str_all p (s +:+ t) = str_all p s && str_all p t.
Proof.
  induction s as [|c s IH]; [done|].
  change (String c s +:+ t) with (String c (s +:+ t)).
  by rewrite !str_all_cons, IH, andb_assoc.
Qed.

Lemma length_app_string s t :
  String.length (s +:+ t) = (String.length s + String.length t)%nat.
Proof. induction s as [|c s IH]; simpl; [done|]. by rewrite IH. Qed.

(** Text without whitespace is left alone by [readline]. *)
Lemma py_readline_no_space s : str_all no_space s = true -> py_readline s = s.
Proof.
  induction s as [|c s IH]; [done|]. rewrite str_all_cons. simpl.
  intros [Hc Hs]%andb_true_iff. rewrite (IH Hs).
  destruct (Ascii.eqb_spec c "010") as [->|]; [done|].
  by destruct (Ascii.eqb_spec c "013") as [->|].
Qed.

Lemma is_digit_no_space c : is_digit c = true -> no_space c = true.
Proof.
  unfold is_digit, no_space, digit_of, py_isspace.
  intros H%bool_decide_eq_true. destruct H as [z H].
  destruct (_ && _) eqn:E in H; [|done].
  apply andb_true_iff in E as [E1 E2].
  apply Nat.leb_le in E1, E2. apply negb_true_iff, orb_false_iff.
  split; apply andb_false_iff; right; apply Nat.leb_gt; lia.
Qed.

Lemma digits_no_space s : str_all is_digit s = true -> str_all no_space s = true.
Proof. apply str_all_impl, is_digit_no_space. Qed.

Lemma py_decimal_digits n : str_all is_digit (py_decimal n) = true.
Proof. rewrite py_decimal_unfold. induction (N.to_uint n); simpl; done. Qed.

(** What [int] skips, [str.strip] removes as well. *)
Lemma c_isspace_py_isspace c : c_isspace c = true -> py_isspace c = true.
Proof.
  unfold c_isspace, py_isspace. intros [H|H]%orb_true_iff.
  - by rewrite H.
  - apply Nat.eqb_eq in H. rewrite H. reflexivity.
Qed.

Lemma no_space_c_isspace c : no_space c = true -> c_isspace c = false.
Proof.
  unfold no_space. intros H%negb_true_iff.
  destruct (c_isspace c) eqn:E; [|done].
  apply c_isspace_py_isspace in E. congruence.
Qed.

Lemma int_rstrip_no_space s : str_all no_space s = true -> int_rstrip s = s.
Proof.
  induction s as [|c s IH]; [done|]. rewrite str_all_cons. simpl.
  intros [Hc Hs]%andb_true_iff. rewrite (IH Hs).
  rewrite (no_space_c_isspace _ Hc). by destruct s.
Qed.

Lemma int_lstrip_no_space s : str_all no_space s = true -> int_lstrip s = s.
Proof.
  destruct s as [|c s]; [done|]. rewrite str_all_cons. simpl.
  intros [Hc Hs]%andb_true_iff. by rewrite (no_space_c_isspace _ Hc).
Qed.

Lemma int_strip_no_space s :
  str_all no_space s = true -> int_rstrip (int_lstrip s) = s.
Proof.
  intros H. by rewrite int_lstrip_no_space, int_rstrip_no_space.
Qed.

(** On a string of digits [int] is the digit reader. *)
Lemma py_int_digits s :
  str_all is_digit s = true -> py_int s = py_digits 0 false s.
Proof.
  intros H. unfold py_int. rewrite int_strip_no_space by by apply digits_no_space.
  destruct s as [|c s]; [done|].
  rewrite str_all_cons in H. apply andb_true_iff in H as [Hc _].
  destruct (Ascii.eqb_spec c "-") as [->|]; [done|].
  destruct (Ascii.eqb_spec c "+") as [->|]; [done|].
  destruct c as [[] [] [] [] [] [] [] []]; done.
Qed.

Lemma py_int_minus s :
  str_all is_digit s = true -> py_int ("-" +:+ s) = Z.opp <$> py_digits 0 false s.
Proof.
  intros H. unfold py_int. rewrite int_strip_no_space; [done|].
  change ("-" +:+ s) with (String "-" s). rewrite str_all_cons.
  by rewrite digits_no_space.
Qed.

(** Reading back what ['%d'] printed gives the number. *)
Lemma py_int_fmt_d m : py_int (fmt_d m) = Some m.
Proof.
  destruct m as [|p|p]; unfold fmt_d.
  - reflexivity.
  - by rewrite py_int_digits, py_digits_decimal by apply py_decimal_digits.
  - by rewrite py_int_minus, py_digits_decimal by apply py_decimal_digits.
Qed.

Lemma fmt_d_no_space m : str_all no_space (fmt_d m) = true.
Proof.
  destruct m; unfold fmt_d; try apply digits_no_space, py_decimal_digits.
  change ("-" +:+ ?s) with (String "-" s). rewrite str_all_cons.
  by rewrite digits_no_space by apply py_decimal_digits.
Qed.

Lemma py_readline_fmt_d m : py_readline (fmt_d m) = fmt_d m.
Proof. apply py_readline_no_space, fmt_d_no_space. Qed.


Lemma zeros_digits k : str_all is_digit (zeros k) = true.
Proof. induction k; [done|]. simpl. by rewrite str_all_cons, IHk. Qed.

Lemma py_digits_zeros k prev s :
  py_digits 0 prev (zeros (S k) +:+ s) = py_digits 0 true s.
Proof. revert prev. induction k; intros prev; [done|]. apply (IHk true). Qed.

Lemma py_digits_zfill w prev n :
  py_digits 0 prev (zfill w (py_decimal n)) = Some (Z.of_N n).
Proof.
  unfold zfill. destruct (w - String.length (py_decimal n))%nat.
  - apply py_digits_decimal.
  - rewrite py_digits_zeros. apply py_digits_decimal.
Qed.

Lemma zfill_digits w s : str_all is_digit s = true -> str_all is_digit (zfill w s) = true.
Proof. intros H. unfold zfill. by rewrite str_all_app, zeros_digits, H. Qed.


Lemma py_int_fmt_04d n : py_int (fmt_04d n) = Some n.
Proof.
  destruct n as [|p|p]; unfold fmt_04d.
  - reflexivity.
  - by rewrite py_int_digits, py_digits_zfill by apply zfill_digits, py_decimal_digits.
  - by rewrite py_int_minus, py_digits_zfill by apply zfill_digits, py_decimal_digits.
Qed.







(** ** submit.py *)

Lemma job_counter_run w n :
  counter_value (fs w) = Some n ->
  Submit.job_counter "./.count" w
  = (Ok n, {| fs := <["./.count" := fmt_d (n + 1)]> (fs w);
              environ := environ w;
              trace := trace w ++ [EvWrite "./.count" (fmt_d (n + 1))] |}).
Proof.
  unfold counter_value, Submit.job_counter, Submit.int_. intros H.
  unfold bind, isfile, read_file, write_file, ret.
  destruct (fs w !! "./.count") as [c|] eqn:E.
  - rewrite bool_decide_eq_true_2 by eauto. by rewrite E, H.
  - rewrite bool_decide_eq_false_2 by (by intros [? ?]). by simplify_eq.
Qed.

Lemma job_counter_invalid w :
  counter_value (fs w) = None ->
  Submit.job_counter "./.count" w = (Raise ValueError, w).
Proof.
  unfold counter_value, Submit.job_counter, Submit.int_. intros H.
  unfold bind, isfile, read_file, write_file, ret, raise.
  destruct (fs w !! "./.count") as [c|] eqn:E; [|done].
  rewrite bool_decide_eq_true_2 by eauto. by rewrite E, H.
Qed.

(** The branch with [./common.sh], once the subshell has printed [env] and
    the counter reads [n]: two files written, then the scheduler command. *)
Lemma submit_jc_run r w env n :
  Submit.sh_dump r = Submit.Object env ->
  counter_value (fs w) = Some n ->
  Submit.submit_jc r w
  = (match Submit.bsub_status r with
     | Some _ => Ok tt
     | None => Raise OSError
     end,
     {| fs := <[jc_tmplog r n := jc_tmptext r n]>
                (<["./.count" := fmt_d (n + 1)]> (fs w));
        environ := jc_environ env r n;
        trace := trace w ++
                 [EvWrite "./.count" (fmt_d (n + 1));
                  EvWrite (jc_tmplog r n) (jc_tmptext r n);
                  EvSpawn Submit.submission_jc (jc_environ env r n)
                    (Submit.bsub_status r)] |}).
Proof.
  intros Hd Hc. unfold Submit.submit_jc, Submit.source_common. rewrite Hd.
  unfold bind at 1. unfold ret at 1. unfold bind at 1.
  unfold Submit.take_environ at 1. unfold bind at 1. unfold set_environ at 1.
  unfold setenv at 1. unfold bind at 1. unfold getenv at 1.
  cbn [environ fs trace]. rewrite lookup_insert_eq.
  change ("." +:+ "/.count") with "./.count".
  erewrite bind_ok; last by (apply job_counter_run; cbn [fs]).
  unfold_prims. cbn [environ fs trace].
  repeat (first [rewrite lookup_insert_eq | rewrite lookup_insert_ne by done];
          cbn [environ fs trace]).
  unfold jc_environ, jc_tmplog, jc_tmptext.
  destruct (Submit.bsub_status r); cbn [environ fs trace];
    rewrite <- !app_assoc; reflexivity.
Qed.

(** A failure before the counter is touched leaves no trace. *)
Lemma submit_jc_no_dump r w :
  Submit.sh_dump r = Submit.NotJSON -> Submit.submit_jc r w = (Raise ValueError, w).
Proof.
  intros Hd. unfold Submit.submit_jc, Submit.source_common. by rewrite Hd.
Qed.

(** So does a dump that is JSON but no object: line 31 refuses it. *)
Lemma submit_jc_no_object r w :
  Submit.sh_dump r = Submit.NotObject -> Submit.submit_jc r w = (Raise TypeError, w).
Proof.
  intros Hd. unfold Submit.submit_jc, Submit.source_common. rewrite Hd.
  by destruct w.
Qed.

Lemma submit_jc_bad_counter r w env :
  Submit.sh_dump r = Submit.Object env -> counter_value (fs w) = None ->
  exists w', Submit.submit_jc r w = (Raise ValueError, w') /\ trace w' = trace w.
Proof.
  intros Hd Hc. unfold Submit.submit_jc, Submit.source_common. rewrite Hd.
  unfold bind at 1. unfold ret at 1. unfold bind at 1.
  unfold Submit.take_environ at 1. unfold bind at 1. unfold set_environ at 1.
  unfold setenv at 1. unfold bind at 1. unfold getenv at 1.
  cbn [environ fs trace]. rewrite lookup_insert_eq.
  change ("." +:+ "/.count") with "./.count".
  erewrite bind_raise; last by (apply job_counter_invalid; cbn [fs]).
  eauto.
Qed.

Lemma main_with_common r w :
  is_Some (fs w !! "./common.sh") ->
  Submit.main r w
  = Submit.submit_jc r {| fs := fs w;
                          environ := <["JC_JOBWD" := Submit.cwd r]> (environ w);
                          trace := trace w |}.
Proof.
  intros Hc. unfold Submit.main. unfold bind at 1. unfold setenv at 1.
  unfold bind at 1. unfold isfile at 1. cbn [fs].
  by rewrite bool_decide_eq_true_2.
Qed.

Lemma main_without_common r w :
  fs w !! "./common.sh" = None ->
  Submit.main r w
  = (match Submit.bsub_status r with
     | Some _ => Ok tt
     | None => Raise OSError
     end,
     {| fs := fs w;
        environ := <["JC_JOBWD" := Submit.cwd r]> (environ w);
        trace := trace w ++
                 [EvSpawn Submit.submission_plain
                    (<["JC_JOBWD" := Submit.cwd r]> (environ w))
                    (Submit.bsub_status r)] |}).
Proof.
  intros Hc. unfold Submit.main. unfold bind at 1. unfold setenv at 1.
  unfold bind at 1. unfold isfile at 1. cbn [fs].
  rewrite bool_decide_eq_false_2 by (rewrite Hc; by intros [? ?]).
  unfold_prims. cbn [environ fs trace]. by destruct (Submit.bsub_status r).
Qed.

(** The whole run when [./common.sh] is there. *)
Lemma main_jc_run r w env n :
  is_Some (fs w !! "./common.sh") ->
  Submit.sh_dump r = Submit.Object env ->
  counter_value (fs w) = Some n ->
  Submit.main r w
  = (match Submit.bsub_status r with
     | Some _ => Ok tt
     | None => Raise OSError
     end,
     {| fs := <[jc_tmplog r n := jc_tmptext r n]>
                (<["./.count" := fmt_d (n + 1)]> (fs w));
        environ := jc_environ env r n;
        trace := trace w ++
                 [EvWrite "./.count" (fmt_d (n + 1));
                  EvWrite (jc_tmplog r n) (jc_tmptext r n);
                  EvSpawn Submit.submission_jc (jc_environ env r n)
                    (Submit.bsub_status r)] |}).
Proof.
  intros Hc Hd Hn. rewrite main_with_common by done.
  by rewrite (submit_jc_run _ _ env n).
Qed.

Lemma tmplog_not_count r n : jc_tmplog r n <> "./.count".
Proof. unfold jc_tmplog, Submit.tmplog_name. simpl. discriminate. Qed.

Lemma jc_environ_jobid env r n : jc_environ env r n !! "JC_JOBID" = Some (fmt_04d n).
Proof.
  unfold jc_environ. rewrite !lookup_insert_ne by done. apply lookup_insert_eq.
Qed.

(** C3, as the code has it.  With [./common.sh] in place and a subshell
    that prints its environment as a JSON object: a run that finds no
    [.count] writes ["2"] and uses job id ["0001"]; a run that finds ["2"]
    uses ["0002"] and leaves ["3"]; a run whose [int] reads the first line
    of [.count] as [n] uses [n] as job id and writes back the text of
    [n + 1], which the next run reads as [n + 1]. *)
Theorem job_counter_update r w env :
  is_Some (fs w !! "./common.sh") ->
  Submit.sh_dump r = Submit.Object env ->
  (fs w !! "./.count" = None ->
   fs (snd (Submit.main r w)) !! "./.count" = Some "2" /\
   environ (snd (Submit.main r w)) !! "JC_JOBID" = Some "0001") /\
  (fs w !! "./.count" = Some "2" ->
   fs (snd (Submit.main r w)) !! "./.count" = Some "3" /\
   environ (snd (Submit.main r w)) !! "JC_JOBID" = Some "0002") /\
  (forall c n,
     fs w !! "./.count" = Some c -> py_int (py_readline c) = Some n ->
     fs (snd (Submit.main r w)) !! "./.count" = Some (fmt_d (n + 1)) /\
     environ (snd (Submit.main r w)) !! "JC_JOBID" = Some (fmt_04d n) /\
     py_int (py_readline (fmt_d (n + 1))) = Some (n + 1)).
Proof.
  intros Hc Hd.
  assert (Hrun : forall n, counter_value (fs w) = Some n ->
            fs (snd (Submit.main r w)) !! "./.count" = Some (fmt_d (n + 1)) /\
            environ (snd (Submit.main r w)) !! "JC_JOBID" = Some (fmt_04d n)).
  { intros n Hn. rewrite (main_jc_run r w env n) by done. cbn [snd fs environ].
    split; [|apply jc_environ_jobid].
    rewrite lookup_insert_ne by apply tmplog_not_count. apply lookup_insert_eq. }
  split; [|split].
  - intros Hnone. apply (Hrun 1). unfold counter_value. by rewrite Hnone.
  - intros Htwo. apply (Hrun 2). unfold counter_value. by rewrite Htwo.
  - intros c n Hfile Hint. destruct (Hrun n) as [H1 H2].
    { unfold counter_value. by rewrite Hfile. }
    by rewrite py_readline_fmt_d, py_int_fmt_d.
Qed.

Lemma job_counter_update_witness :
  (fs (snd (Submit.main (jc_run (Some 0)) (jc_world None))) !! "./.count" = Some "2" /\
   environ (snd (Submit.main (jc_run (Some 0)) (jc_world None))) !! "JC_JOBID"
     = Some "0001") /\
  (fs (snd (Submit.main (jc_run (Some 0)) (jc_world (Some "2")))) !! "./.count"
     = Some "3" /\
   environ (snd (Submit.main (jc_run (Some 0)) (jc_world (Some "2")))) !! "JC_JOBID"
     = Some "0002") /\
  (fs (snd (Submit.main (jc_run (Some 0)) (jc_world (Some ("41" +:+ nl)))))
     !! "./.count" = Some (fmt_d (41 + 1)) /\
   environ (snd (Submit.main (jc_run (Some 0)) (jc_world (Some ("41" +:+ nl)))))
     !! "JC_JOBID" = Some (fmt_04d 41) /\
   py_int (py_readline (fmt_d (41 + 1))) = Some (41 + 1)).
Proof.
  split; [|split].
  - apply (job_counter_update (jc_run (Some 0)) (jc_world None)
             {[ "JC_JOB" := "./job.sh" ]}); [by eexists | reflexivity | reflexivity].
  - apply (job_counter_update (jc_run (Some 0)) (jc_world (Some "2"))
             {[ "JC_JOB" := "./job.sh" ]}); [by eexists | reflexivity | reflexivity].
  - apply (proj2 (proj2 (job_counter_update (jc_run (Some 0))
                           (jc_world (Some ("41" +:+ nl)))
                           {[ "JC_JOB" := "./job.sh" ]} ltac:(by eexists) eq_refl))
             ("41" +:+ nl) 41);
      reflexivity.
Defined.

(** C3 as stated fails when [./common.sh] is there and the output of the
    subshell is no JSON object (the file prints a message of its own, fails,
    or finds no [python]): the run stops at line 27 or at line 31, before
    the counter is looked at; no [.count] is written and no job id is
    assigned. *)
Lemma job_counter_needs_environment :
  is_Some (fs (jc_world None) !! "./common.sh") /\
  fs (jc_world None) !! "./.count" = None /\
  fst (Submit.main (with_dump (jc_run (Some 0)) Submit.NotJSON) (jc_world None))
    = Raise ValueError /\
  fs (snd (Submit.main (with_dump (jc_run (Some 0)) Submit.NotJSON) (jc_world None)))
    !! "./.count" = None /\
  environ (snd (Submit.main (with_dump (jc_run (Some 0)) Submit.NotJSON)
                  (jc_world None))) !! "JC_JOBID" = None /\
  fst (Submit.main (with_dump (jc_run (Some 0)) Submit.NotObject) (jc_world None))
    = Raise TypeError /\
  fs (snd (Submit.main (with_dump (jc_run (Some 0)) Submit.NotObject) (jc_world None)))
    !! "./.count" = None.
Proof. split; [by eexists | repeat split]. Qed.






(** C2, as the code has it.  A run whose scheduler command was started and
    ended with code [n] goes on to the end of the script: the interpreter
    exits with status 0, whatever [n] is. *)
Theorem submitter_exit_status r w cmd env n :
  trace w = [] ->
  In (EvSpawn cmd env (Some n)) (trace (snd (Submit.main r w))) ->
  fst (Submit.main r w) = Ok tt /\ exit_status (fst (Submit.main r w)) = 0.
Proof.
  intros Ht. destruct (fs w !! "./common.sh") as [c|] eqn:Hc.
  - rewrite main_with_common by eauto.
    destruct (Submit.sh_dump r) as [| |env'] eqn:Hd.
    + rewrite submit_jc_no_dump by done. cbn [snd trace]. rewrite Ht. by intros [].
    + rewrite submit_jc_no_object by done. cbn [snd trace]. rewrite Ht. by intros [].
    + destruct (counter_value (fs w)) as [k|] eqn:Hk.
      * rewrite (submit_jc_run _ _ env' k) by done. cbn [snd fst trace].
        rewrite Ht. cbn [app In]. intros [H|[H|[H|[]]]]; simplify_eq.
        match goal with E : Submit.bsub_status r = Some _ |- _ => by rewrite E end.
      * destruct (submit_jc_bad_counter r
                    {| fs := fs w;
                       environ := <["JC_JOBWD" := Submit.cwd r]> (environ w);
                       trace := trace w |} env' Hd Hk) as (w' & -> & Hw').
        cbn [snd]. rewrite Hw'. cbn [trace]. rewrite Ht. by intros [].
  - rewrite main_without_common by done. cbn [snd fst trace].
    rewrite Ht. cbn [app In]. intros [H|[]]; simplify_eq.
    match goal with E : Submit.bsub_status r = Some _ |- _ => by rewrite E end.
Qed.

Lemma submitter_exit_status_witness :
  fst (Submit.main (jc_run (Some 3)) (jc_world None)) = Ok tt /\
  exit_status (fst (Submit.main (jc_run (Some 3)) (jc_world None))) = 0.
Proof.
  apply (submitter_exit_status (jc_run (Some 3)) (jc_world None)
           Submit.submission_jc
           (jc_environ {[ "JC_JOB" := "./job.sh" ]} (jc_run (Some 3)) 1) 3).
  - reflexivity.
  - vm_compute. right. right. left. reflexivity.
Defined.

(** C2 as stated fails: the scheduler command ends with code 1 and the
    script with status 0, on either branch. *)
Lemma submitter_exit_status_lost :
  trace (snd (Submit.main (jc_run (Some 1)) (jc_world None)))
    = [EvWrite "./.count" "2";
       EvWrite (jc_tmplog (jc_run (Some 1)) 1) (jc_tmptext (jc_run (Some 1)) 1);
       EvSpawn Submit.submission_jc
         (jc_environ {[ "JC_JOB" := "./job.sh" ]} (jc_run (Some 1)) 1) (Some 1)] /\
  exit_status (fst (Submit.main (jc_run (Some 1)) (jc_world None))) = 0 /\
  trace (snd (Submit.main (jc_run (Some 1)) (mkWorld ∅ ∅ [])))
    = [EvSpawn Submit.submission_plain {[ "JC_JOBWD" := "/scratch/run" ]} (Some 1)] /\
  exit_status (fst (Submit.main (jc_run (Some 1)) (mkWorld ∅ ∅ []))) = 0.
Proof. repeat split. Qed.

(** ** post.py *)

Lemma is_prefix_refl s : is_prefix s s.
Proof.
  exists "". induction s as [|a s IH]; [done|].
  change (String a s = String a (s +:+ "")). by rewrite <- IH.
Qed.

Lemma app_string_assoc s t u : (s +:+ t) +:+ u = s +:+ (t +:+ u).
Proof.
  induction s as [|a s IH]; [done|].
  change (String a ((s +:+ t) +:+ u) = String a (s +:+ (t +:+ u))). by rewrite IH.
Qed.

Lemma is_prefix_trans s t u : is_prefix s t -> is_prefix t u -> is_prefix s u.
Proof. intros [a ->] [b ->]. exists (a +:+ b). apply app_string_assoc. Qed.

Lemma is_prefix_app s t : is_prefix s (s +:+ t).
Proof. by exists t. Qed.

Section PostFacts.
Variable sts : Post.Describe -> string.
Variable tts : list Post.Row -> string.

Lemma read_csv_inv f w r w' :
  Post.read_csv f w = (r, w') ->
  w' = w /\
  match r with
  | Ok df => exists c, fs w !! f = Some c /\ Post.parse_csv c = Ok df
  | Raise _ => True
  end.
Proof.
  unfold Post.read_csv, bind, read_file. destruct (fs w !! f) as [c|] eqn:E.
  - intros [= <- <-]. split; [done|]. destruct (Post.parse_csv c) eqn:P; eauto.
  - by intros [= <- <-].
Qed.


(** One round of the loop. *)
Lemma summarize_cons f rest da w :
  Post.summarize sts (f :: rest) da w
  = match Post.read_csv f w with
    | (Ok df, w1) =>
        Post.summarize sts rest (da ++ [Post.mean_row df])
          {| fs := <[f := default "" (fs w1 !! f) +:+ sts (Post.describe df)]> (fs w1);
             environ := environ w1;
             trace := trace w1 ++ [EvAppend f (sts (Post.describe df))] |}
    | (Raise e, w1) => (Raise e, w1)
    end.
Proof.
  cbn [Post.summarize]. unfold bind at 1.
  destruct (Post.read_csv f w) as [[df|e] w1]; [|done].
  unfold bind, append_file. reflexivity.
Qed.

Lemma summarize_grows l : forall da w p c,
  fs w !! p = Some c ->
  exists c', fs (snd (Post.summarize sts l da w)) !! p = Some c' /\ is_prefix c c'.
Proof.
  induction l as [|f rest IH]; intros da w p c Hp.
  - exists c. split; [done | apply is_prefix_refl].
  - rewrite summarize_cons.
    destruct (Post.read_csv f w) as [[df|e] w1] eqn:R;
      apply read_csv_inv in R as [-> R].
    2:{ exists c. split; [done | apply is_prefix_refl]. }
    destruct (decide (p = f)) as [->|Hne].
    + edestruct IH as (c' & Hc' & Hpre); last first.
      { exists c'. split; [exact Hc'|]. eapply is_prefix_trans; [|exact Hpre].
        apply (is_prefix_app c (sts (Post.describe df))). }
      cbn [fs]. rewrite Hp. apply lookup_insert_eq.
    + apply IH. cbn [fs]. by rewrite lookup_insert_ne.
Qed.



Lemma Forall2_impl_elem {A B} (P Q : A -> B -> Prop) l k :
  Forall2 P l k -> (forall x y, x ∈ l -> P x y -> Q x y) -> Forall2 Q l k.
Proof.
  induction 1 as [|x y l k Hxy _ IH]; intros HPQ; constructor.
  - apply HPQ; [left | done].
  - apply IH. intros x' y' Hin. apply HPQ. by right.
Qed.

Lemma summarize_ok l :
  NoDup l -> forall da w da' w',
  Post.summarize sts l da w = (Ok da', w') ->
  exists dfs,
    Forall2 (processed sts w w') l dfs /\
    da' = (da ++ map Post.mean_row dfs)%list /\
    (forall p, p ∉ l -> fs w' !! p = fs w !! p) /\
    trace w' = (trace w ++
                zip_with (fun p df => EvAppend p (sts (Post.describe df))) l dfs)%list.
Proof.
  induction 1 as [|f rest Hnin Hnd IH]; intros da w da' w' Hrun.
  - injection Hrun as <- <-. exists []. rewrite !app_nil_r. by repeat split.
  - rewrite summarize_cons in Hrun.
    destruct (Post.read_csv f w) as [[df|e] w1] eqn:R; [|done].
    apply read_csv_inv in R as [-> (c & Hc & Hparse)].
    apply IH in Hrun as (dfs & Hall & -> & Hframe & Htrace).
    cbn [fs trace] in *. exists (df :: dfs). repeat split.
    + constructor.
      * exists c. repeat split; [done..|].
        rewrite (Hframe f Hnin), Hc. apply lookup_insert_eq.
      * eapply Forall2_impl_elem; [exact Hall|].
        intros p df' Hin (c' & Hc' & Hp' & Hfin). exists c'.
        repeat split; [|done..].
        cbn [fs] in Hc'. rewrite lookup_insert_ne in Hc'; [done|]. by intros ->.
    + by rewrite <- app_assoc.
    + intros p Hp. rewrite not_elem_of_cons in Hp. destruct Hp as [Hpf Hpr].
      rewrite (Hframe p Hpr). by apply lookup_insert_ne.
    + rewrite Htrace, <- app_assoc. reflexivity.
Qed.

(** Without the assumption on duplicates: one row and one append per path,
    in the order of the list. *)
Lemma summarize_order l : forall da w da' w',
  Post.summarize sts l da w = (Ok da', w') ->
  appended (trace w') = (appended (trace w) ++ l)%list /\
  length da' = (length da + length l)%nat.
Proof.
  induction l as [|f rest IH]; intros da w da' w' Hrun.
  - injection Hrun as <- <-. rewrite app_nil_r. split; [done | simpl; lia].
  - rewrite summarize_cons in Hrun.
    destruct (Post.read_csv f w) as [[df|e] w1] eqn:R; [|done].
    apply read_csv_inv in R as [-> _].
    apply IH in Hrun as [Htr Hlen]. cbn [trace] in Htr.
    rewrite Htr, Hlen. unfold appended. rewrite omap_app, length_app. simpl.
    rewrite <- app_assoc. split; [done|lia].
Qed.

Lemma sorted_perm l1 l2 : l1 ≡ₚ l2 -> Post.sorted l1 = Post.sorted l2.
Proof.
  intros Hp. unfold Post.sorted.
  apply (StronglySorted_unique String.le); try apply StronglySorted_merge_sort; try apply _.
  by rewrite !merge_sort_Permutation.
Qed.



Lemma sorted_sorted l : StronglySorted String.le (Post.sorted l).
Proof. apply StronglySorted_merge_sort; apply _. Qed.

Lemma sorted_Permutation l : Post.sorted l ≡ₚ l.
Proof. apply merge_sort_Permutation. Qed.

Lemma main_ok_inv args w da w' :
  Post.main sts tts args w = (Ok da, w') ->
  exists w1,
    Post.summarize sts (Post.sorted (Post.files args)) [] w = (Ok da, w1) /\
    w' = {| fs := <[Post.output args := tts da]> (fs w1);
            environ := environ w1;
            trace := trace w1 ++ [EvWrite (Post.output args) (tts da)] |}.
Proof.
  unfold Post.main. unfold bind at 1.
  destruct (Post.summarize sts _ [] w) as [[da1|e] w1]; [|done].
  unfold bind, write_file, ret. intros [= <- <-]. eauto.
Qed.


(** C7. Two invocations whose [--files] lists are permutations of each
    other behave the same in every respect; the files are processed, and
    the rows of the summary table laid out, in the ascending lexicographic
    order of the paths: the table has one row per path, the appends follow
    the sorted list, and (paths being distinct) row [i] is the mean row of
    the [i]-th path of the sorted list. *)
Theorem summary_order_invariant files1 files2 out w :
  files1 ≡ₚ files2 ->
  Post.main sts tts {| Post.files := files1; Post.output := out |} w
    = Post.main sts tts {| Post.files := files2; Post.output := out |} w /\
  StronglySorted String.le (Post.sorted files1) /\
  Post.sorted files1 ≡ₚ files1 /\
  forall da w',
    Post.main sts tts {| Post.files := files1; Post.output := out |} w = (Ok da, w') ->
    length da = length files1 /\
    appended (trace w') = (appended (trace w) ++ Post.sorted files1)%list /\
    (NoDup files1 ->
     exists dfs, Forall2 (parsed_from w) (Post.sorted files1) dfs /\
                 da = map Post.mean_row dfs).
Proof.
  intros Hperm. split; [|split; [apply sorted_sorted | split; [apply sorted_Permutation|]]].
  { unfold Post.main. cbn [Post.files Post.output]. by rewrite (sorted_perm _ _ Hperm). }
  intros da w' Hrun. apply main_ok_inv in Hrun as (w1 & Hsum & ->).
  cbn [Post.files Post.output trace] in *.
  pose proof (summarize_order _ _ _ _ _ Hsum) as [Htr Hlen].
  split; [|split].
  - rewrite Hlen. simpl. by rewrite sorted_Permutation.
  - unfold appended in *. rewrite omap_app. simpl. by rewrite app_nil_r.
  - intros Hnd. apply summarize_ok in Hsum as (dfs & Hall & -> & _).
    2:{ by rewrite sorted_Permutation. }
    exists dfs. split; [|done].
    eapply Forall2_impl; [exact Hall|]. intros p df (c & ? & ? & _). by exists c.
Qed.

(** The run with the resolution of paths made explicit. *)
Lemma main_via_unfold resolve args w :
  Post.main_via sts tts resolve args w
  = match Post.summarize sts (map resolve (Post.sorted (Post.files args))) [] w with
    | (Ok da, w1) =>
        (Ok da, {| fs := <[resolve (Post.output args) := tts da]> (fs w1);
                   environ := environ w1;
                   trace := trace w1
                            ++ [EvWrite (resolve (Post.output args)) (tts da)] |})
    | (Raise e, w1) => (Raise e, w1)
    end.
Proof.
  unfold Post.main_via. unfold bind at 1.
  by destruct (Post.summarize sts _ [] w) as [[da|e] w1].
Qed.

(** [main] is the run in which every path is its own file. *)
Lemma main_via_id args w :
  Post.main_via sts tts (fun p => p) args w = Post.main sts tts args w.
Proof. unfold Post.main_via, Post.main. by rewrite map_id. Qed.

Lemma map_sorted_Permutation (resolve : string -> string) l :
  map resolve (Post.sorted l) ≡ₚ map resolve l.
Proof. apply Permutation_map, sorted_Permutation. Qed.

(** C10, as the code has it.  [resolve] gives the file each path reaches.
    Every file other than the one the output path reaches has, after the
    run, a content that begins with its content before the run, whether the
    run succeeds or stops on an error; for a file reached by an input path
    of a successful run (the input paths reaching distinct files) what
    follows the old content is exactly the statistics block of that file. *)
Theorem inputs_only_grow resolve args w i c :
  fs w !! i = Some c -> i <> resolve (Post.output args) ->
  (exists c',
     fs (snd (Post.main_via sts tts resolve args w)) !! i = Some c' /\
     is_prefix c c') /\
  (forall da,
     fst (Post.main_via sts tts resolve args w) = Ok da ->
     NoDup (map resolve (Post.files args)) -> i ∈ map resolve (Post.files args) ->
     exists df, Post.parse_csv c = Ok df /\
                fs (snd (Post.main_via sts tts resolve args w)) !! i
                  = Some (c +:+ sts (Post.describe df))).
Proof.
  intros Hi Hne. rewrite main_via_unfold. split.
  - destruct (summarize_grows (map resolve (Post.sorted (Post.files args))) [] w i c Hi)
      as (c' & Hc' & Hpre).
    exists c'. split; [|done].
    destruct (Post.summarize sts _ [] w) as [[da|e] w1]; [|done].
    cbn [snd fs] in *. by rewrite lookup_insert_ne.
  - intros da Hok Hnd Hin.
    destruct (Post.summarize sts _ [] w) as [[da'|e] w1] eqn:Hsum; [|done].
    cbn [fst snd fs] in *.
    apply summarize_ok in Hsum as (dfs & Hall & _).
    2:{ by rewrite map_sorted_Permutation. }
    rewrite <- (map_sorted_Permutation resolve (Post.files args)) in Hin.
    apply list_elem_of_lookup in Hin as [k Hk].
    destruct (Forall2_lookup_l _ _ _ _ _ Hall Hk) as (df & _ & (c0 & Hc0 & Hparse & Hfin)).
    assert (c0 = c) as -> by congruence.
    exists df. split; [done|]. by rewrite lookup_insert_ne.
Qed.

End PostFacts.

Example sample_text_parses :
  Post.parse_csv sample_text = Ok [sample_row] /\
  Post.parse_csv sample_text_wide = Ok [sample_row] /\
  Post.parse_csv "4 1.0 2.0 3.0 6.0" = Ok [sample_row].
Proof. repeat split. Qed.

(** C10 as stated fails when an input path is also the output path: the
    file is opened with mode ['w'] at the end and holds the summary table
    only.  Whatever pandas prints for the table, the two input texts below
    give the same table text, and no text begins with both of them. *)
Lemma output_overwrites_input :
  (forall sts tts,
     fs (snd (Post.main sts tts {| Post.files := ["run.dat"]; Post.output := "run.dat" |}
                (one_file_world "run.dat" sample_text))) !! "run.dat"
     = Some (tts [sample_row])) /\
  (forall sts tts,
     fs (snd (Post.main sts tts {| Post.files := ["run.dat"]; Post.output := "run.dat" |}
                (one_file_world "run.dat" sample_text_wide))) !! "run.dat"
     = Some (tts [sample_row])) /\
  ~ exists t, is_prefix sample_text t /\ is_prefix sample_text_wide t.
Proof.
  split; [|split].
  - intros sts tts. reflexivity.
  - intros sts tts. reflexivity.
  - intros (t & [u ->] & [v H]). discriminate H.
Qed.


(** The order of [sorted] is that of the character codes: upper case before
    lower case, a prefix before its extensions. *)
Example sorted_ex :
  Post.sorted ["b.dat"; "a.dat"; "B.dat"; "a.dat.1"; "a"]
  = ["B.dat"; "a"; "a.dat"; "a.dat.1"; "b.dat"].
Proof. reflexivity. Qed.

(** The run of the specification's example, files given in reverse order. *)
Example aggregator_example :
  Post.sorted ["run2.dat"; "run1.dat"] = ["run1.dat"; "run2.dat"] /\
  fst (Post.main demo_stats demo_table
         {| Post.files := ["run2.dat"; "run1.dat"]; Post.output := "summary.txt" |}
         (two_file_world sample_text))
  = Ok [sample_row; sample_row] /\
  trace (snd (Post.main demo_stats demo_table
                {| Post.files := ["run2.dat"; "run1.dat"]; Post.output := "summary.txt" |}
                (two_file_world sample_text)))
  = [EvAppend "run1.dat" "<stats>"; EvAppend "run2.dat" "<stats>";
     EvWrite "summary.txt" "<table>"] /\
  fs (snd (Post.main demo_stats demo_table
             {| Post.files := ["run2.dat"; "run1.dat"]; Post.output := "summary.txt" |}
             (two_file_world sample_text))) !! "run1.dat"
  = Some (sample_text +:+ "<stats>").
Proof. repeat split. Qed.

(** A file that already carries a statistics block no longer parses. *)
Example aggregator_rerun :
  fst (Post.main demo_stats demo_table
         {| Post.files := ["run1.dat"; "run1.dat"]; Post.output := "summary.txt" |}
         (two_file_world sample_text))
  = Raise ParserError.
Proof. reflexivity. Qed.


Lemma summary_order_invariant_witness :
  Post.main demo_stats demo_table
    {| Post.files := ["run2.dat"; "run1.dat"]; Post.output := "summary.txt" |}
    (two_file_world sample_text)
  = Post.main demo_stats demo_table
      {| Post.files := ["run1.dat"; "run2.dat"]; Post.output := "summary.txt" |}
      (two_file_world sample_text) /\
  StronglySorted String.le (Post.sorted ["run2.dat"; "run1.dat"]) /\
  Post.sorted ["run2.dat"; "run1.dat"] ≡ₚ ["run2.dat"; "run1.dat"] /\
  forall da w',
    Post.main demo_stats demo_table
      {| Post.files := ["run2.dat"; "run1.dat"]; Post.output := "summary.txt" |}
      (two_file_world sample_text) = (Ok da, w') ->
    length da = length ["run2.dat"; "run1.dat"] /\
    appended (trace w')
      = (appended (trace (two_file_world sample_text))
         ++ Post.sorted ["run2.dat"; "run1.dat"])%list /\
    (NoDup ["run2.dat"; "run1.dat"] ->
     exists dfs,
       Forall2 (parsed_from (two_file_world sample_text))
         (Post.sorted ["run2.dat"; "run1.dat"]) dfs /\
       da = map Post.mean_row dfs).
Proof.
  apply (summary_order_invariant demo_stats demo_table
           ["run2.dat"; "run1.dat"] ["run1.dat"; "run2.dat"] "summary.txt"
           (two_file_world sample_text)).
  apply perm_swap.
Defined.

Lemma inputs_only_grow_witness :
  (exists c',
     fs (snd (Post.main_via demo_stats demo_table drop_dot_slash
                {| Post.files := ["run2.dat"; "./run1.dat"];
                   Post.output := "./summary.txt" |}
                (two_file_world sample_text))) !! "run1.dat" = Some c' /\
     is_prefix sample_text c') /\
  (forall da,
     fst (Post.main_via demo_stats demo_table drop_dot_slash
            {| Post.files := ["run2.dat"; "./run1.dat"];
               Post.output := "./summary.txt" |}
            (two_file_world sample_text)) = Ok da ->
     NoDup (map drop_dot_slash
              (Post.files {| Post.files := ["run2.dat"; "./run1.dat"];
                             Post.output := "./summary.txt" |})) ->
     "run1.dat" ∈ map drop_dot_slash
                    (Post.files {| Post.files := ["run2.dat"; "./run1.dat"];
                                   Post.output := "./summary.txt" |}) ->
     exists df, Post.parse_csv sample_text = Ok df /\
                fs (snd (Post.main_via demo_stats demo_table drop_dot_slash
                           {| Post.files := ["run2.dat"; "./run1.dat"];
                              Post.output := "./summary.txt" |}
                           (two_file_world sample_text))) !! "run1.dat"
                  = Some (sample_text +:+ demo_stats (Post.describe df))).
Proof.
  apply (inputs_only_grow demo_stats demo_table drop_dot_slash
           {| Post.files := ["run2.dat"; "./run1.dat"]; Post.output := "./summary.txt" |}
           (two_file_world sample_text) "run1.dat" sample_text);
    [reflexivity | discriminate].
Defined.

(** The same loss under another spelling: with [-f run.dat -o ./run.dat]
    the two paths differ and reach one file, which ends up holding the
    table only; with an output of its own the input keeps its content and
    gains the statistics block. *)
Example output_alias_overwrites_input :
  "run.dat" <> "./run.dat" /\
  fs (snd (Post.main_via demo_stats demo_table drop_dot_slash
             {| Post.files := ["run.dat"]; Post.output := "./run.dat" |}
             (one_file_world "run.dat" sample_text))) !! "run.dat"
    = Some "<table>" /\
  fs (snd (Post.main_via demo_stats demo_table drop_dot_slash
             {| Post.files := ["run.dat"]; Post.output := "./summary.txt" |}
             (one_file_world "run.dat" sample_text))) !! "run.dat"
    = Some (sample_text +:+ "<stats>").
Proof. split; [discriminate | split; reflexivity]. Qed.

(** * Further properties *)

(** ** More on gen_version.py *)

Lemma app_string_nil_r s : s +:+ "" = s.
Proof.
  induction s as [|a s IH]; [done|].
  change (String a (s +:+ "") = String a s). by rewrite IH.
Qed.

Lemma split_on_go_nonempty sep cur s : py_split_on_go sep cur s <> [].
Proof.
  revert cur. induction s as [|c s IH]; intros cur; simpl; [done|].
  destruct (Ascii.eqb c sep); [done | apply IH].
Qed.

Lemma py_join_cons sep x l :
  l <> [] -> py_join sep (x :: l) = x +:+ sep +:+ py_join sep l.
Proof. by destruct l. Qed.

Lemma split_on_go_join sep cur s :
  py_join (String sep "") (py_split_on_go sep cur s) = cur +:+ s.
Proof.
  revert cur. induction s as [|c s IH]; intros cur.
  - simpl. by rewrite app_string_nil_r.
  - cbn [py_split_on_go]. destruct (Ascii.eqb_spec c sep) as [->|Hne].
    + rewrite py_join_cons by apply split_on_go_nonempty. by rewrite IH.
    + rewrite IH. by rewrite app_string_assoc.
Qed.

Lemma split_on_go_without sep cur s :
  without sep cur = true ->
  Forall (fun x => without sep x = true) (py_split_on_go sep cur s).
Proof.
  revert cur. induction s as [|c s IH]; intros cur Hcur.
  - by constructor.
  - cbn [py_split_on_go]. destruct (Ascii.eqb_spec c sep) as [->|Hne].
    + constructor; [done|]. by apply IH.
    + apply IH. unfold without in *. rewrite str_all_app, Hcur, str_all_cons.
      simpl. apply andb_true_iff. split; [|done].
      apply negb_true_iff. by apply Ascii.eqb_neq.
Qed.

(** X2. When the version block succeeds, the version string is the stripped
    content of the [VERSION] file, the three components joined by dots give
    it back, and no component contains a dot; nothing is written. *)
Theorem version_components_round_trip args w version major minor patch w' :
  GenVersion.read_version args w = (Ok (version, (major, minor, patch)), w') ->
  w' = w /\
  (exists content,
     fs w !! GenVersion.os_path_join (GenVersion.project_root args) ["VERSION"]
       = Some content /\ version = py_strip content) /\
  version = major +:+ "." +:+ minor +:+ "." +:+ patch /\
  without "." major = true /\ without "." minor = true /\ without "." patch = true.
Proof.
  unfold GenVersion.read_version, GenVersion.unpack3, bind, read_file, ret, raise.
  destruct (fs w !! _) as [content|] eqn:E; [|done].
  destruct (py_split_on "." (py_strip content)) as [|a [|b [|c [|d l]]]] eqn:S;
    try done.
  intros [= <- <- <- <- <-]. split; [done|]. split; [eauto|].
  pose proof (split_on_go_join "." "" (py_strip content)) as J.
  pose proof (split_on_go_without "." "" (py_strip content) eq_refl) as W.
  unfold py_split_on in S. rewrite S in J, W.
  split; [symmetry; exact J|].
  by inversion W as [|? ? ? W1]; inversion W1 as [|? ? ? W2]; inversion W2.
Qed.

Lemma endswith_char_snoc c s : GenVersion.endswith_char c (s +:+ String c "") = true.
Proof.
  induction s as [|a s IH]; simpl; [apply Ascii.eqb_refl|].
  change (String a s +:+ String c "") with (String a (s +:+ String c "")) in *.
  cbn [GenVersion.endswith_char].
  destruct (s +:+ String c "") eqn:E; [by destruct s|done].
Qed.

Lemma join_step_slash root b :
  root <> "" -> GenVersion.endswith_char "/" root = false ->
  GenVersion.join_step (root +:+ "/") b = GenVersion.join_step root b.
Proof.
  intros Hne Hend. unfold GenVersion.join_step.
  destruct (String.prefix "/" b); [done|].
  rewrite endswith_char_snoc, Hend.
  destruct root as [|a root]; [done|].
  change (String a root +:+ "/") with (String a (root +:+ "/")).
  cbv beta iota.
  change ((String a root +:+ "/") +:+ b = String a root +:+ "/" +:+ b).
  apply app_string_assoc.
Qed.

Lemma os_path_join_slash root b l :
  root <> "" -> GenVersion.endswith_char "/" root = false ->
  GenVersion.os_path_join (root +:+ "/") (b :: l)
  = GenVersion.os_path_join root (b :: l).
Proof.
  intros. unfold GenVersion.os_path_join. cbn [fold_left].
  by rewrite join_step_slash.
Qed.

(** X3. A trailing slash on a non-empty project root changes nothing: the
    same files are read and the run ends the same way. *)
Theorem project_root_trailing_slash args root w :
  root <> "" -> GenVersion.endswith_char "/" root = false ->
  GenVersion.read_version (with_root args (root +:+ "/")) w
    = GenVersion.read_version (with_root args root) w /\
  GenVersion.resolve_head (with_root args (root +:+ "/")) w
    = GenVersion.resolve_head (with_root args root) w /\
  GenVersion.main (with_root args (root +:+ "/")) w
    = GenVersion.main (with_root args root) w.
Proof.
  intros Hne Hend.
  assert (Hv : GenVersion.read_version (with_root args (root +:+ "/")) w
               = GenVersion.read_version (with_root args root) w).
  { unfold GenVersion.read_version. cbn [with_root GenVersion.project_root].
    by rewrite os_path_join_slash. }
  assert (Hh : GenVersion.resolve_head (with_root args (root +:+ "/")) w
               = GenVersion.resolve_head (with_root args root) w).
  { unfold GenVersion.resolve_head. cbn [with_root GenVersion.project_root].
    rewrite os_path_join_slash by done. unfold bind, isfile.
    destruct (bool_decide _); [|done]. unfold read_file.
    destruct (fs w !! _); [|done].
    destruct (1 <? length _)%nat; [|done].
    cbv zeta. by rewrite os_path_join_slash. }
  split; [done|]. split; [done|].
  unfold GenVersion.main. unfold bind at 1 3. rewrite Hv.
  destruct (GenVersion.read_version (with_root args root) w) as [[[v p]|e] w1] eqn:E;
    [|done].
  pose proof (read_version_pure _ _ _ _ E) as ->.
  unfold bind. by rewrite Hh.
Qed.

(** X4. When [.git/HEAD] holds two tokens or more, only the second one
    counts: [HEAD] is that token and [SHA1] the stripped content of the file
    it names under [.git]; when that file is missing (a repository with no
    commit yet) the lookup stops with [FileNotFoundError]. *)
Theorem resolve_head_follows_ref args w content t0 t1 rest :
  fs w !! GenVersion.os_path_join (GenVersion.project_root args) [".git"; "HEAD"]
    = Some content ->
  py_split (py_strip content) = t0 :: t1 :: rest ->
  GenVersion.resolve_head args w
  = match fs w !! GenVersion.os_path_join (GenVersion.project_root args) [".git"; t1] with
    | Some ref => (Ok (GenVersion.VStr t1, GenVersion.VStr (py_strip ref)), w)
    | None => (Raise FileNotFoundError, w)
    end.
Proof.
  intros H Htok. unfold GenVersion.resolve_head, bind, isfile, read_file.
  rewrite H, bool_decide_eq_true_2 by eauto. cbv beta iota.
  rewrite H. cbv beta iota. rewrite Htok.
  cbn -[GenVersion.os_path_join].
  by destruct (fs w !! GenVersion.os_path_join (GenVersion.project_root args)
                         [".git"; t1]).
Qed.

Lemma os_path_join_absolute root d t :
  String.prefix "/" t = true -> GenVersion.os_path_join root [d; t] = t.
Proof.
  intros H. unfold GenVersion.os_path_join. cbn [fold_left].
  unfold GenVersion.join_step at 1. by rewrite H.
Qed.

(** X5. A second token that starts with a slash is not looked up under
    [.git]: [os.path.join] drops the project root, and the file read is the
    one at that absolute path. *)
Theorem resolve_head_absolute_ref args w content t0 t1 rest ref :
  fs w !! GenVersion.os_path_join (GenVersion.project_root args) [".git"; "HEAD"]
    = Some content ->
  py_split (py_strip content) = t0 :: t1 :: rest ->
  String.prefix "/" t1 = true ->
  fs w !! t1 = Some ref ->
  GenVersion.resolve_head args w
  = (Ok (GenVersion.VStr t1, GenVersion.VStr (py_strip ref)), w).
Proof.
  intros H Htok Habs Href. unfold GenVersion.resolve_head, bind, isfile, read_file.
  rewrite H, bool_decide_eq_true_2 by eauto. cbv beta iota.
  rewrite H. cbv beta iota. rewrite Htok.
  cbn -[GenVersion.os_path_join].
  by rewrite os_path_join_absolute, Href.
Qed.

(** X6. When [.git/HEAD] holds fewer than two tokens (a detached head, or
    an empty file), [HEAD] and [SHA1] are the list of tokens, and a run with
    a valid [VERSION] and a readable template stops with [TypeError]. *)
Theorem head_without_ref_is_type_error args w version content template :
  fs w !! GenVersion.os_path_join (GenVersion.project_root args) ["VERSION"]
    = Some version ->
  length (py_split_on "." (py_strip version)) = 3%nat ->
  fs w !! GenVersion.os_path_join (GenVersion.project_root args) [".git"; "HEAD"]
    = Some content ->
  (length (py_split (py_strip content)) <= 1)%nat ->
  fs w !! GenVersion.input args = Some template ->
  GenVersion.resolve_head args w
    = (Ok (GenVersion.VList (py_split (py_strip content)),
           GenVersion.VList (py_split (py_strip content))), w) /\
  GenVersion.main args w = (Raise TypeError, w).
Proof.
  intros Hv Hlen Hh Htok Ht.
  assert (Hres : GenVersion.resolve_head args w
            = (Ok (GenVersion.VList (py_split (py_strip content)),
                   GenVersion.VList (py_split (py_strip content))), w)).
  { unfold GenVersion.resolve_head, bind, isfile, read_file.
    rewrite Hh, bool_decide_eq_true_2 by eauto. cbv beta iota. rewrite Hh.
    cbv beta iota zeta.
    destruct (1 <? length (py_split (py_strip content)))%nat eqn:E; [|done].
    apply Nat.ltb_lt in E. lia. }
  split; [done|].
  unfold GenVersion.main. unfold bind at 1.
  unfold GenVersion.read_version, GenVersion.unpack3, bind at 1 2, read_file at 1.
  rewrite Hv.
  destruct (py_split_on "." (py_strip version)) as [|a [|b [|c [|d l]]]];
    simpl in Hlen; try lia.
  cbv beta iota. unfold ret at 1 2. cbv beta iota.
  unfold bind at 1. rewrite Hres. cbv beta iota.
  unfold GenVersion.stamp, bind, read_file. rewrite Ht. reflexivity.
Qed.

(** X1. Whatever the command line and the files, the Version Stamper ends
    in an exception, with the file system as it found it; the exception is
    the refused write, [UnsupportedOperation], only when the version file,
    the template and the output file are all there. *)
Theorem stamper_outcome args w :
  exists e,
    GenVersion.main args w = (Raise e, w) /\
    (e = UnsupportedOperation ->
     is_Some (fs w !! GenVersion.output args) /\
     is_Some (fs w !! GenVersion.input args) /\
     is_Some (fs w !! GenVersion.os_path_join (GenVersion.project_root args)
                        ["VERSION"])).
Proof.
  unfold GenVersion.main, GenVersion.read_version, GenVersion.unpack3,
    GenVersion.resolve_head, GenVersion.stamp, GenVersion.str_replace.
  unfold_prims.
  repeat (case_match; simplify_eq /=);
    eexists; (split; [reflexivity|]); intros; simplify_eq; eauto.
Qed.

(** ** More on submit.py *)

(** X7. Without [./common.sh] no file is written, a counter file that is
    there is left alone, and the plain scheduler command is started once,
    with the caller's environment extended by [JC_JOBWD]. *)
Theorem submit_without_common r w :
  fs w !! "./common.sh" = None ->
  fs (snd (Submit.main r w)) = fs w /\
  trace (snd (Submit.main r w))
    = (trace w ++ [EvSpawn Submit.submission_plain
                     (<["JC_JOBWD" := Submit.cwd r]> (environ w))
                     (Submit.bsub_status r)])%list /\
  fst (Submit.main r w)
    = match Submit.bsub_status r with
      | Some _ => Ok tt
      | None => Raise OSError
      end.
Proof. intros H. by rewrite main_without_common. Qed.

Lemma submit_jc_bad_counter_run r w env :
  Submit.sh_dump r = Submit.Object env -> counter_value (fs w) = None ->
  Submit.submit_jc r w
  = (Raise ValueError,
     {| fs := fs w; environ := <["JC_LOGHOME" := "."]> env; trace := trace w |}).
Proof.
  intros Hd Hk. unfold Submit.submit_jc, Submit.source_common. rewrite Hd.
  unfold bind at 1. unfold ret at 1. unfold bind at 1.
  unfold Submit.take_environ at 1. unfold bind at 1. unfold set_environ at 1.
  unfold setenv at 1. unfold bind at 1. unfold getenv at 1.
  cbn [environ fs trace]. rewrite lookup_insert_eq.
  change ("." +:+ "/.count") with "./.count".
  by erewrite bind_raise; last by (apply job_counter_invalid; cbn [fs]).
Qed.

(** X8. With [./common.sh] in place, a run stops before anything is
    written and without starting the scheduler when the output of the
    subshell is no JSON text ([ValueError] from [json.loads]), when it is
    JSON but no object ([TypeError] at line 31), and when it is an object
    and the first line of the counter file is no integer ([ValueError] from
    [int]). *)
Theorem submit_fails_before_counter r w :
  is_Some (fs w !! "./common.sh") ->
  (forall env, Submit.sh_dump r = Submit.Object env -> counter_value (fs w) = None) ->
  fst (Submit.main r w)
    = Raise (match Submit.sh_dump r with
             | Submit.NotObject => TypeError
             | _ => ValueError
             end) /\
  fs (snd (Submit.main r w)) = fs w /\
  trace (snd (Submit.main r w)) = trace w.
Proof.
  intros Hc Hbad. rewrite main_with_common by done.
  destruct (Submit.sh_dump r) as [| |env] eqn:Hd.
  - by rewrite submit_jc_no_dump.
  - by rewrite submit_jc_no_object.
  - by rewrite (submit_jc_bad_counter_run _ _ env) by eauto.
Qed.

Lemma tmplog_not_common r n : jc_tmplog r n <> "./common.sh".
Proof. unfold jc_tmplog, Submit.tmplog_name. simpl. discriminate. Qed.

Lemma counter_after_run r w env n :
  is_Some (fs w !! "./common.sh") ->
  Submit.sh_dump r = Submit.Object env ->
  counter_value (fs w) = Some n ->
  is_Some (fs (snd (Submit.main r w)) !! "./common.sh") /\
  counter_value (fs (snd (Submit.main r w))) = Some (n + 1) /\
  environ (snd (Submit.main r w)) !! "JC_JOBID" = Some (fmt_04d n).
Proof.
  intros Hc Hd Hn. rewrite (main_jc_run r w env n) by done. cbn [snd fs environ].
  split; [|split].
  - rewrite lookup_insert_ne by apply tmplog_not_common.
    by rewrite lookup_insert_ne.
  - unfold counter_value.
    rewrite lookup_insert_ne by apply tmplog_not_count.
    rewrite lookup_insert_eq. by rewrite py_readline_fmt_d, py_int_fmt_d.
  - apply jc_environ_jobid.
Qed.

(** X9. Runs made one after the other from the counter value [n] use the
    job ids of [n], [n + 1], ... in that order, and leave the counter at
    [n] plus the number of runs, whether the scheduler commands succeed
    or not. *)
Theorem consecutive_runs rs : forall w n,
  is_Some (fs w !! "./common.sh") ->
  Forall (fun r => exists env, Submit.sh_dump r = Submit.Object env) rs ->
  counter_value (fs w) = Some n ->
  fst (submit_seq rs w) = ids_from n (length rs) /\
  counter_value (fs (snd (submit_seq rs w))) = Some (n + Z.of_nat (length rs)).
Proof.
  induction rs as [|r rs IH]; intros w n Hc Hall Hn.
  - simpl. split; [done|]. by rewrite Z.add_0_r.
  - inversion Hall as [|? ? [env Hd] Hall']; subst.
    destruct (counter_after_run r w env n Hc Hd Hn) as (Hc1 & Hn1 & Hid).
    destruct (IH _ _ Hc1 Hall' Hn1) as [Hids Hfin].
    cbn [submit_seq]. destruct (submit_seq rs (snd (Submit.main r w))) as [ids w2].
    change (length (r :: rs)) with (S (length rs)). rewrite Nat2Z.inj_succ.
    cbn [fst snd ids_from] in *. rewrite Hid, Hids. split; [done|].
    rewrite Hfin.
    by replace (n + Z.succ (Z.of_nat (length rs)))
      with (n + 1 + Z.of_nat (length rs)) by lia.
Qed.

Lemma app_string_inv_tail u : forall s s', s +:+ u = s' +:+ u -> s = s'.
Proof.
  induction s as [|a s IH]; intros [|a' s'] H.
  - done.
  - apply (f_equal String.length) in H.
    change (String.length u = S (String.length (s' +:+ u))) in H.
    rewrite length_app_string in H. lia.
  - apply (f_equal String.length) in H.
    change (S (String.length (s +:+ u)) = String.length u) in H.
    rewrite length_app_string in H. lia.
  - change (String a (s +:+ u) = String a' (s' +:+ u)) in H.
    injection H as -> H. f_equal. by apply IH.
Qed.

(** X10. Different counter values give different job ids, and different
    temp-log names for the same date and time. *)
Theorem job_ids_distinct r n m :
  n <> m -> fmt_04d n <> fmt_04d m /\ jc_tmplog r n <> jc_tmplog r m.
Proof.
  intros Hne.
  assert (Hfmt : fmt_04d n <> fmt_04d m).
  { intros E. pose proof (py_int_fmt_04d n) as H. rewrite E, py_int_fmt_04d in H.
    congruence. }
  split; [done|]. intros E. apply Hfmt.
  unfold jc_tmplog, Submit.tmplog_name in E.
  repeat apply String.app_inj in E. by apply app_string_inv_tail in E.
Qed.



Lemma no_space_without_nl s : str_all no_space s = true -> without "010" s = true.
Proof.
  apply str_all_impl. intros c Hc.
  destruct (Ascii.eqb_spec c "010") as [->|]; [done|done].
Qed.



(** ** More on post.py *)

Section PostExtras.
Variable sts : Post.Describe -> string.
Variable tts : list Post.Row -> string.

Lemma summarize_frame l : forall da w,
  environ (snd (Post.summarize sts l da w)) = environ w /\
  (forall p, p ∉ l -> fs (snd (Post.summarize sts l da w)) !! p = fs w !! p).
Proof.
  induction l as [|f rest IH]; intros da w.
  - simpl. by split.
  - rewrite summarize_cons.
    destruct (Post.read_csv f w) as [[df|e] w1] eqn:R;
      apply read_csv_inv in R as [-> _]; [|by split].
    edestruct IH as (He & Hf). rewrite He. cbn [environ fs].
    split; [done|].
    intros p Hp. rewrite not_elem_of_cons in Hp. destruct Hp as [Hpf Hpr].
    rewrite (Hf p Hpr). cbn [fs]. by rewrite lookup_insert_ne.
Qed.

(** X15. The Benchmark Aggregator touches no file other than the files its
    input paths and its output path reach, however they are spelled, and
    leaves the environment alone, whether it succeeds or fails. *)
Theorem aggregator_frame resolve args w i :
  i ∉ map resolve (Post.files args) -> i <> resolve (Post.output args) ->
  fs (snd (Post.main_via sts tts resolve args w)) !! i = fs w !! i /\
  environ (snd (Post.main_via sts tts resolve args w)) = environ w.
Proof.
  intros Hi Hout. rewrite main_via_unfold.
  destruct (summarize_frame (map resolve (Post.sorted (Post.files args))) [] w)
    as (He & Hf).
  assert (Hi' : i ∉ map resolve (Post.sorted (Post.files args))).
  { intros Hin. apply Hi. revert Hin. rewrite !list_elem_of_In.
    apply Permutation_in, Permutation_map, sorted_Permutation. }
  specialize (Hf i Hi').
  destruct (Post.summarize sts _ [] w) as [[da|e'] w1]; [|done].
  cbn [fst snd fs environ] in *. by rewrite lookup_insert_ne.
Qed.

End PostExtras.

(** ** The further properties on concrete runs *)

Lemma version_components_round_trip_witness :
  stamper_world ("1.2.3" +:+ nl) = stamper_world ("1.2.3" +:+ nl) /\
  (exists content,
     fs (stamper_world ("1.2.3" +:+ nl))
       !! GenVersion.os_path_join (GenVersion.project_root stamper_args) ["VERSION"]
       = Some content /\ "1.2.3" = py_strip content) /\
  "1.2.3" = "1" +:+ "." +:+ "2" +:+ "." +:+ "3" /\
  without "." "1" = true /\ without "." "2" = true /\ without "." "3" = true.
Proof.
  apply (version_components_round_trip stamper_args (stamper_world ("1.2.3" +:+ nl))
           "1.2.3" "1" "2" "3" (stamper_world ("1.2.3" +:+ nl))).
  reflexivity.
Defined.

Lemma project_root_trailing_slash_witness :
  GenVersion.read_version (with_root stamper_args ("." +:+ "/")) (branch_world "3f2a9c1")
    = GenVersion.read_version (with_root stamper_args ".") (branch_world "3f2a9c1") /\
  GenVersion.resolve_head (with_root stamper_args ("." +:+ "/")) (branch_world "3f2a9c1")
    = GenVersion.resolve_head (with_root stamper_args ".") (branch_world "3f2a9c1") /\
  GenVersion.main (with_root stamper_args ("." +:+ "/")) (branch_world "3f2a9c1")
    = GenVersion.main (with_root stamper_args ".") (branch_world "3f2a9c1").
Proof.
  apply (project_root_trailing_slash stamper_args "." (branch_world "3f2a9c1"));
    [discriminate | reflexivity].
Defined.

Lemma resolve_head_follows_ref_witness :
  GenVersion.resolve_head stamper_args (branch_world "3f2a9c1")
  = match fs (branch_world "3f2a9c1")
            !! GenVersion.os_path_join (GenVersion.project_root stamper_args)
                 [".git"; "refs/heads/master"] with
    | Some ref =>
        (Ok (GenVersion.VStr "refs/heads/master", GenVersion.VStr (py_strip ref)),
         branch_world "3f2a9c1")
    | None => (Raise FileNotFoundError, branch_world "3f2a9c1")
    end.
Proof.
  apply (resolve_head_follows_ref stamper_args (branch_world "3f2a9c1")
           ("ref: refs/heads/master" +:+ nl) "ref:" "refs/heads/master" []);
    reflexivity.
Defined.

Lemma resolve_head_absolute_ref_witness :
  GenVersion.resolve_head stamper_args absolute_ref_world
  = (Ok (GenVersion.VStr "/srv/refs/main",
         GenVersion.VStr (py_strip ("3f2a9c1" +:+ nl))),
     absolute_ref_world).
Proof.
  apply (resolve_head_absolute_ref stamper_args absolute_ref_world
           ("ref: /srv/refs/main" +:+ nl) "ref:" "/srv/refs/main" []
           ("3f2a9c1" +:+ nl));
    reflexivity.
Defined.

Lemma head_without_ref_is_type_error_witness :
  GenVersion.resolve_head stamper_args (detached_world "")
    = (Ok (GenVersion.VList (py_split (py_strip ("" +:+ nl))),
           GenVersion.VList (py_split (py_strip ("" +:+ nl)))),
       detached_world "") /\
  GenVersion.main stamper_args (detached_world "") = (Raise TypeError, detached_world "").
Proof.
  apply (head_without_ref_is_type_error stamper_args (detached_world "")
           "1.2.3" ("" +:+ nl) "v@VERSION@ (@HEAD@/@SHA1@)");
    [reflexivity | reflexivity | reflexivity | vm_compute; lia | reflexivity].
Defined.

Lemma submit_without_common_witness :
  fs (snd (Submit.main (jc_run (Some 0)) (mkWorld {[ "./.count" := "7" ]} ∅ [])))
    = fs (mkWorld {[ "./.count" := "7" ]} ∅ []) /\
  trace (snd (Submit.main (jc_run (Some 0)) (mkWorld {[ "./.count" := "7" ]} ∅ [])))
    = (trace (mkWorld {[ "./.count" := "7" ]} ∅ []) ++
       [EvSpawn Submit.submission_plain
          (<["JC_JOBWD" := Submit.cwd (jc_run (Some 0))]>
             (environ (mkWorld {[ "./.count" := "7" ]} ∅ [])))
          (Submit.bsub_status (jc_run (Some 0)))])%list /\
  fst (Submit.main (jc_run (Some 0)) (mkWorld {[ "./.count" := "7" ]} ∅ []))
    = match Submit.bsub_status (jc_run (Some 0)) with
      | Some _ => Ok tt
      | None => Raise OSError
      end.
Proof.
  apply (submit_without_common (jc_run (Some 0))
           (mkWorld {[ "./.count" := "7" ]} ∅ [])).
  reflexivity.
Defined.

Lemma submit_fails_before_counter_witness :
  fst (Submit.main (jc_run (Some 0)) (jc_world (Some "seven")))
    = Raise (match Submit.sh_dump (jc_run (Some 0)) with
             | Submit.NotObject => TypeError
             | _ => ValueError
             end) /\
  fs (snd (Submit.main (jc_run (Some 0)) (jc_world (Some "seven"))))
    = fs (jc_world (Some "seven")) /\
  trace (snd (Submit.main (jc_run (Some 0)) (jc_world (Some "seven"))))
    = trace (jc_world (Some "seven")).
Proof.
  apply (submit_fails_before_counter (jc_run (Some 0)) (jc_world (Some "seven")));
    [by eexists | intros env _; reflexivity].
Defined.

(** The failures on concrete runs: an output that is no JSON, one that is
    no object, a counter file that holds a word, and one whose number is
    followed by the separator FS. *)
Example submit_failures_ex :
  fst (Submit.main (with_dump (jc_run (Some 0)) Submit.NotJSON) (jc_world (Some "7")))
    = Raise ValueError /\
  fst (Submit.main (with_dump (jc_run (Some 0)) Submit.NotObject) (jc_world (Some "7")))
    = Raise TypeError /\
  fs (snd (Submit.main (with_dump (jc_run (Some 0)) Submit.NotObject)
             (jc_world (Some "7")))) !! "./.count" = Some "7" /\
  fst (Submit.main (jc_run (Some 0)) (jc_world (Some "seven"))) = Raise ValueError /\
  fst (Submit.main (jc_run (Some 0)) (jc_world (Some ("7" +:+ String "028" nl))))
    = Raise ValueError /\
  trace (snd (Submit.main (jc_run (Some 0)) (jc_world (Some ("7" +:+ String "028" nl)))))
    = [].
Proof. repeat split. Qed.

Lemma consecutive_runs_witness :
  fst (submit_seq three_runs (jc_world (Some "9998")))
    = ids_from 9998 (length three_runs) /\
  counter_value (fs (snd (submit_seq three_runs (jc_world (Some "9998")))))
    = Some (9998 + Z.of_nat (length three_runs)).
Proof.
  apply (consecutive_runs three_runs (jc_world (Some "9998")) 9998);
    [by eexists | repeat constructor; by eexists | reflexivity].
Defined.

Lemma job_ids_distinct_witness :
  fmt_04d 1 <> fmt_04d 10001 /\
  jc_tmplog (jc_run None) 1 <> jc_tmplog (jc_run None) 10001.
Proof. apply (job_ids_distinct (jc_run None) 1 10001). discriminate. Defined.



Lemma aggregator_frame_witness :
  fs (snd (Post.main_via demo_stats demo_table drop_dot_slash
             {| Post.files := ["./run1.dat"]; Post.output := "./summary.txt" |}
             (two_file_world sample_text))) !! "run2.dat"
    = fs (two_file_world sample_text) !! "run2.dat" /\
  environ (snd (Post.main_via demo_stats demo_table drop_dot_slash
                  {| Post.files := ["./run1.dat"]; Post.output := "./summary.txt" |}
                  (two_file_world sample_text)))
    = environ (two_file_world sample_text).
Proof.
  apply (aggregator_frame demo_stats demo_table drop_dot_slash
           {| Post.files := ["./run1.dat"]; Post.output := "./summary.txt" |}
           (two_file_world sample_text) "run2.dat").
  - cbn [Post.files map drop_dot_slash]. rewrite not_elem_of_cons.
    split; [discriminate|]. apply not_elem_of_nil.
  - discriminate.
Defined.

(** ** The counter file is read by its first line *)

Lemma py_readline_first line rest :
  without "010" line = true -> without "013" line = true ->
  py_readline (line +:+ String "010" rest) = line +:+ nl.
Proof.
  induction line as [|c line IH]; intros Hn Hr; [done|].
  unfold without in *. rewrite str_all_cons in Hn, Hr.
  apply andb_true_iff in Hn as [Hn1 Hn2]. apply andb_true_iff in Hr as [Hr1 Hr2].
  apply negb_true_iff in Hn1, Hr1.
  change (String c line +:+ String "010" rest)
    with (String c (line +:+ String "010" rest)).
  cbn [py_readline]. rewrite Hn1, Hr1. cbn [orb].
  rewrite IH by done. reflexivity.
Qed.

Lemma int_rstrip_snoc_space s c :
  c_isspace c = true -> int_rstrip (s +:+ String c "") = int_rstrip s.
Proof.
  intros Hc. induction s as [|a s IH].
  - change ("" +:+ String c "") with (String c ""). simpl. by rewrite Hc.
  - change (String a s +:+ String c "") with (String a (s +:+ String c "")).
    cbn [int_rstrip]. by rewrite IH.
Qed.

Lemma int_strip_snoc_space s c :
  c_isspace c = true ->
  int_rstrip (int_lstrip (s +:+ String c "")) = int_rstrip (int_lstrip s).
Proof.
  intros Hc. induction s as [|a s IH].
  - change ("" +:+ String c "") with (String c ""). simpl. by rewrite Hc.
  - change (String a s +:+ String c "") with (String a (s +:+ String c "")).
    cbn [int_lstrip]. destruct (c_isspace a); [done|].
    change (String a (s +:+ String c "")) with (String a s +:+ String c "").
    by apply int_rstrip_snoc_space.
Qed.

(** X17. In a run that finds [./common.sh] and whose subshell prints its
    environment, only the first line of the counter file counts: what
    follows the first newline is not read, and is gone after the run, which
    leaves the next value alone in the file, without a newline. *)
Theorem counter_reads_first_line r w env line rest n :
  is_Some (fs w !! "./common.sh") ->
  Submit.sh_dump r = Submit.Object env ->
  fs w !! "./.count" = Some (line +:+ String "010" rest) ->
  without "010" line = true -> without "013" line = true ->
  py_int line = Some n ->
  counter_value (fs w) = Some n /\
  environ (snd (Submit.main r w)) !! "JC_JOBID" = Some (fmt_04d n) /\
  fs (snd (Submit.main r w)) !! "./.count" = Some (fmt_d (n + 1)) /\
  without "010" (fmt_d (n + 1)) = true.
Proof.
  intros Hc Hd Hfile Hn Hr Hint.
  assert (Hcv : counter_value (fs w) = Some n).
  { unfold counter_value. rewrite Hfile, py_readline_first by done.
    unfold py_int, nl in *. by rewrite int_strip_snoc_space. }
  split; [done|]. rewrite (main_jc_run r w env n) by done. cbn [snd fs environ].
  split; [apply jc_environ_jobid|]. split.
  - rewrite lookup_insert_ne by apply tmplog_not_count. apply lookup_insert_eq.
  - apply no_space_without_nl, fmt_d_no_space.
Qed.

Lemma counter_reads_first_line_witness :
  counter_value (fs (jc_world (Some ("41" +:+ String "010" "# last job")))) = Some 41 /\
  environ (snd (Submit.main (jc_run (Some 0))
                  (jc_world (Some ("41" +:+ String "010" "# last job")))))
    !! "JC_JOBID" = Some (fmt_04d 41) /\
  fs (snd (Submit.main (jc_run (Some 0))
             (jc_world (Some ("41" +:+ String "010" "# last job")))))
    !! "./.count" = Some (fmt_d (41 + 1)) /\
  without "010" (fmt_d (41 + 1)) = true.
Proof.
  apply (counter_reads_first_line (jc_run (Some 0))
           (jc_world (Some ("41" +:+ String "010" "# last job")))
           {[ "JC_JOB" := "./job.sh" ]} "41" "# last job" 41);
    [by eexists | reflexivity | reflexivity | reflexivity | reflexivity | reflexivity].
Defined.
